(** * Sollumz RDR exporters: drawable dictionaries (ydd) and map data (ymap)

    A shallow embedding of [ydd/yddexport.py] and [ymap/ymapexport.py].
    Scene objects are records of the attributes the exporters read, the
    exporters are functions over them, and what the Python code does to
    those attributes and to its caller (renaming an object, triangulating
    a mesh, setting a toggle on the container, writing to the log, raising
    an assertion error) is made explicit in the value a function returns. *)

From Stdlib Require Import List ZArith QArith String Ascii Bool Lia.
From Stdlib Require Import Permutation Sorted.
From Stdlib.Strings Require Byte.
From Stdlib Require Import Reals Lra.
Import ListNotations.

Set Implicit Arguments.
Set Warnings "-register-all".

Local Open Scope string_scope.
Local Open Scope list_scope.
Local Open Scope Z_scope.

(** ** Enumerations of [sollumz_properties]

    Only the members the two exporters compare against are spelled out;
    any other member of [SollumType] is carried by its tag. *)

Inductive SollumzGame : Type :=
| GTA
| RDR.

Inductive SollumType : Type :=
| DRAWABLE
| YMAP_ENTITY_GROUP
| YMAP_BOX_OCCLUDER_GROUP
| YMAP_MODEL_OCCLUDER_GROUP
| YMAP_CAR_GENERATOR_GROUP
| YMAP_BOX_OCCLUDER
| YMAP_MODEL_OCCLUDER
| YMAP_CAR_GENERATOR
| OTHER_SOLLUM_TYPE (tag : string).

Definition SollumType_eq_dec (a b : SollumType) : {a = b} + {a <> b}.
Proof. decide equality. apply string_dec. Defined.

Definition sollum_type_eqb (a b : SollumType) : bool :=
  if SollumType_eq_dec a b then true else false.

(** Comparisons of two roles that are both known evaluate. *)
Ltac decide_roles :=
  repeat match goal with
  | |- context [sollum_type_eqb ?a ?b] =>
      let v := eval vm_compute in (sollum_type_eqb a b) in
      match v with
      | true => change (sollum_type_eqb a b) with true
      | false => change (sollum_type_eqb a b) with false
      end
  end.

(** ** Python string helpers *)

(** [s.split(".")[0]]: the text before the first period, the whole
    string when it has none. *)
Fixpoint before_first_dot (s : string) : string :=
  match s with
  | EmptyString => EmptyString
  | String c rest =>
      if Ascii.eqb c "."%char then EmptyString
      else String c (before_first_dot rest)
  end.

Definition lower_char (c : ascii) : ascii :=
  let n := nat_of_ascii c in
  if ((65 <=? n) && (n <=? 90))%nat then ascii_of_nat (n + 32) else c.

Definition upper_char (c : ascii) : ascii :=
  let n := nat_of_ascii c in
  if ((97 <=? n) && (n <=? 122))%nat then ascii_of_nat (n - 32) else c.

(** [str.isascii()]: every character is 7-bit ASCII. *)
Fixpoint isascii (s : string) : bool :=
  match s with
  | EmptyString => true
  | String c rest => (nat_of_ascii c <? 128)%nat && isascii rest
  end.

(** [str.lower()] and [str.upper()] as they act on ASCII text.  Python
    maps the cased letters outside ASCII as well, which these leave
    alone: the two agree with Python on the strings that satisfy
    [isascii], and only there. *)
Fixpoint lower (s : string) : string :=
  match s with
  | EmptyString => EmptyString
  | String c rest => String (lower_char c) (lower rest)
  end.

Fixpoint upper (s : string) : string :=
  match s with
  | EmptyString => EmptyString
  | String c rest => String (upper_char c) (upper rest)
  end.

(** Replacing every occurrence of a non-empty literal [pat] by [rep],
    scanning from the left without overlap: [s.replace(pat, rep)], and
    [re.sub] when the pattern matches one literal text.  [skip] counts
    the characters of a matched occurrence still to be passed over. *)
Fixpoint replace_from (pat rep : string) (skip : nat) (s : string) : string :=
  match s with
  | EmptyString => EmptyString
  | String c rest =>
      match skip with
      | S k => replace_from pat rep k rest
      | O =>
          if String.prefix pat s
          then (rep ++ replace_from pat rep (String.length pat - 1) rest)%string
          else String c (replace_from pat rep 0 rest)
      end
  end.

Definition replace (pat rep s : string) : string := replace_from pat rep 0 s.

(** [pat in s]: some suffix of [s] starts with [pat]. *)
Fixpoint contains (pat s : string) : bool :=
  String.prefix pat s
  || match s with
     | EmptyString => false
     | String _ rest => contains pat rest
     end.

(** [list.sort(key=...)]: ascending by key and stable.  Python's sort is
    a merge sort; a stable sort has one possible result (see
    [stable_sorted_unique] below), so an insertion sort computes it. *)
Section SortByKey.
  Context {A : Type} (key : A -> Z).

Fixpoint insert_by_key (x : A) (l : list A) : list A :=
  match l with
  | [] => [x]
  | y :: rest =>
      if key x <=? key y then x :: y :: rest
      else y :: insert_by_key x rest
  end.

Fixpoint sort_by_key (l : list A) : list A :=
  match l with
  | [] => []
  | x :: rest => insert_by_key x (sort_by_key rest)
  end.

Definition key_le (a b : A) : Prop := key a <= key b.

Definition with_key (k : Z) (l : list A) : list A :=
  filter (fun a => key a =? k) l.

(** [output] is [input] put in ascending order of [key], the records of
    one key in the order they had, and no other list is. *)
Definition stable_ascending (input output : list A) : Prop :=
  StronglySorted (fun a b => key a <= key b) output
  /\ Permutation input output
  /\ (forall k, with_key k output = with_key k input)
  /\ (forall l, Sorted key_le l ->
        (forall k, with_key k l = with_key k input) -> l = output).

End SortByKey.

(** ** The drawable dictionary exporter, [ydd/yddexport.py] *)

Module Ydd.

(** The attributes of a [bpy.types.Object] this exporter reads. *)
Inductive Object : Type := mkObject {
  name : string;
  type : string;
  sollum_type : SollumType;
  sollum_game_type : SollumzGame;
  children : list Object
}.

Definition is_armature (o : Object) : bool := String.eqb (type o) "ARMATURE".

(** [find_ydd_armature]: the first child whose type is ["ARMATURE"];
    falling off the loop returns [None]. *)
Definition find_ydd_armature (ydd_obj : Object) : option Object :=
  find is_armature (children ydd_obj).

(** What [create_drawable_xml] of [ydr/ydrexport.py] returns is opaque
    here but for the three attributes the dictionary exporter touches. *)
Record Drawable (Skeleton Geometry : Type) : Type := mkDrawable {
  xml_name : string;
  xml_hash : string;
  xml_skeleton : option Skeleton;
  xml_geometry : Geometry
}.

(** The collaborators: the drawable encoder and the two hash primitives
    of [tools/jenkhash]. *)
Class Collaborators (Skeleton Geometry : Type) : Type := {
  create_drawable_xml : Object -> option Object -> Drawable Skeleton Geometry;
  name_to_hash : string -> Z;
  name_to_hash_literal : string -> Z
}.

Section Exporter.
  Context {Skeleton Geometry : Type} {collab : Collaborators Skeleton Geometry}.

Let Drawable : Type := Drawable Skeleton Geometry.

Definition get_hash (item : Drawable) : Z :=
  name_to_hash (before_first_dot (xml_name item)).

Definition rdr_get_hash_literal (item : Drawable) : Z :=
  name_to_hash_literal (xml_hash item).

(** [DrawableDictionary] is the list itself; [RDR2DrawableDictionary]
    holds it in [drawables]. *)
Inductive YddXml : Type :=
| DrawableDictionary (items : list Drawable)
| RDR2DrawableDictionary (drawables : list Drawable).

Definition ydd_items (y : YddXml) : list Drawable :=
  match y with
  | DrawableDictionary l => l
  | RDR2DrawableDictionary l => l
  end.

(** One call of the drawable encoder: the child and the [armature_obj]
    keyword argument. *)
Definition EncoderCall : Type := (Object * option Object)%type.

(** The [armature_obj] the loop body computes for [child]. *)
Definition armature_obj_for (ydd_armature : option Object) (child : Object)
  : option Object :=
  if negb (is_armature child) then ydd_armature else None.

(** The loop body for a child that passed the [DRAWABLE] test. *)
Definition export_child (exclude_skeleton : bool)
  (ydd_armature : option Object) (child : Object) : EncoderCall * Drawable :=
  let armature_obj := armature_obj_for ydd_armature child in
  let drawable_xml := create_drawable_xml child armature_obj in
  let drawable_xml :=
    mkDrawable (xml_name drawable_xml ++ ".#dd")%string (xml_hash drawable_xml)
      (xml_skeleton drawable_xml) (xml_geometry drawable_xml) in
  let drawable_xml :=
    if exclude_skeleton || negb (is_armature child)
    then mkDrawable (xml_name drawable_xml) (xml_hash drawable_xml)
           None (xml_geometry drawable_xml)
    else drawable_xml in
  ((child, armature_obj), drawable_xml).

Definition is_drawable (child : Object) : bool :=
  sollum_type_eqb (sollum_type child) DRAWABLE.

Definition reference_armature (ydd_obj : Object) : option Object :=
  if negb (is_armature ydd_obj) then find_ydd_armature ydd_obj
  else Some ydd_obj.

(** The loop of [create_ydd_xml]: the encoder calls made, in order, and
    the records appended, in order. *)
Definition collect (ydd_obj : Object) (exclude_skeleton : bool)
  : list (EncoderCall * Drawable) :=
  map (export_child exclude_skeleton (reference_armature ydd_obj))
    (filter is_drawable (children ydd_obj)).

Definition encoder_calls (ydd_obj : Object) (exclude_skeleton : bool)
  : list EncoderCall :=
  map fst (collect ydd_obj exclude_skeleton).

Definition collected (ydd_obj : Object) (exclude_skeleton : bool)
  : list Drawable :=
  map snd (collect ydd_obj exclude_skeleton).

Definition create_ydd_xml (ydd_obj : Object) (exclude_skeleton : bool)
  : YddXml :=
  match sollum_game_type ydd_obj with
  | GTA => DrawableDictionary
             (sort_by_key get_hash (collected ydd_obj exclude_skeleton))
  | RDR => RDR2DrawableDictionary
             (sort_by_key rdr_get_hash_literal
                (collected ydd_obj exclude_skeleton))
  end.

End Exporter.

End Ydd.

(** ** Numbers and vectors of the host

    Blender and NumPy compute on IEEE floats.  The exporter is embedded
    over any carrier [F] with the operations it uses, so that what is
    proved of it does not rest on an idealisation of float arithmetic;
    the carrier of real numbers further down is one such idealisation. *)

(** Python's float built-ins and [math]: literals, [*], [abs], [>],
    [round], [math.sin] and [math.cos]. *)
Class PyFloat (F : Type) : Type := {
  float_of_Z : Z -> F;
  float_of_Q : Q -> F;
  fmul : F -> F -> F;
  fabs : F -> F;
  fgtb : F -> F -> bool;
  py_round : F -> Z;
  math_sin : F -> F;
  math_cos : F -> F
}.

(** NumPy's conversion to [float32]: the IEEE-754 binary32 pattern it
    stores for a value. *)
Class NumPy (F : Type) : Type := {
  float32_bits : F -> Z
}.

Module Vector.
Record t (F : Type) : Type := mk { x : F; y : F; z : F }.
End Vector.

Module Euler.
Record t (F : Type) : Type := mk { x : F; y : F; z : F }.
End Euler.

Module Quaternion.
Record t (F : Type) : Type := mk { w : F; x : F; y : F; z : F }.
End Quaternion.

(** A 4x4 matrix, by rows. *)
Definition Matrix (F : Type) : Type := list (list F).

(** The [mathutils] operations the exporter calls: [Vector.rotate],
    [Euler.to_quaternion], [Quaternion.invert] and [Matrix @ Vector]. *)
Class MathUtils (F : Type) : Type := {
  rotate : Vector.t F -> Euler.t F -> Vector.t F;
  to_quaternion : Euler.t F -> Quaternion.t F;
  invert : Quaternion.t F -> Quaternion.t F;
  matmul : Matrix F -> Vector.t F -> Vector.t F
}.

(** [dir *= 0.5] and the like. *)
Definition vec_scale {F : Type} `{PyFloat F} (v : Vector.t F) (k : F)
  : Vector.t F :=
  Vector.mk (fmul (Vector.x v) k) (fmul (Vector.y v) k) (fmul (Vector.z v) k).

(** ** NumPy buffers *)

Definition byte_of_nat (n : nat) : Byte.byte :=
  match Byte.of_nat (n mod 256) with
  | Some b => b
  | None => Byte.x00
  end.

(** [np.uint8] of a Python integer wraps modulo 256. *)
Definition uint8 (i : nat) : Byte.byte := byte_of_nat i.

(** The four bytes of a 32-bit pattern, least significant first. *)
Definition le_bytes32 (bits : Z) : list Byte.byte :=
  map (fun k => byte_of_nat (Z.to_nat (Z.land (Z.shiftr bits (8 * k)) 255)))
    [0; 1; 2; 3].

Definition float32_tobytes {F : Type} `{NumPy F} (f : F) : list Byte.byte :=
  le_bytes32 (float32_bits f).

(** ** The map data exporter, [ymap/ymapexport.py] *)

Module Ymap.

(** *** The scene, as the exporter reads it *)

(** [obj.data]: the coordinates [v.co] of the vertices, and for each
    polygon the indices [p.vertices] of its corners. *)
Record Mesh (F : Type) : Type := mkMesh {
  vertices : list (Vector.t F);
  polygons : list (list nat)
}.

(** [obj.entity_properties].  The properties the exporter passes through
    [int] are taken at their integer value. *)
Module EntityProperties.
Record t (F : Type) : Type := mk {
  flags : Z;
  guid : Z;
  parent_index : Z;
  lod_dist : F;
  child_lod_dist : F;
  lod_level : string;
  num_children : Z;
  priority_level : string;
  ambient_occlusion_multiplier : Z;
  artificial_ambient_occlusion : Z;
  tint_value : Z;
  blend_age_layer : Z;
  blend_age_dirt : Z
}.
End EntityProperties.

(** [obj.ymap_cargen_properties]. *)
Module CargenProperties.
Record t (F : Type) : Type := mk {
  perpendicular_length : F;
  car_model : string;
  cargen_flags : Z;
  body_color_remap_1 : Z;
  body_color_remap_2 : Z;
  body_color_remap_3 : Z;
  body_color_remap_4 : Z;
  pop_group : string;
  livery : Z
}.
End CargenProperties.

(** The block metadata, on the container ([ymap_properties.block]) and
    on the record ([CMapData.block]).  [versiflagson] is the attribute of
    that name, absent until something assigns it. *)
Module Block.
Record t : Type := mk {
  version : string;
  flags : string;
  name : string;
  exported_by : string;
  owner : string;
  time : string;
  versiflagson : option string
}.
End Block.

(** Modelled from the spec: the property group that ties the
    [content_flags] bit field to its toggles is declared outside [src/].
    The bit field is read as its occlusion bit, which is the toggle
    [content_flags_toggle.has_occl], and the remaining bits. *)
Module ContentFlags.
Record t : Type := mk {
  has_occl : bool;
  other_bits : Z
}.
End ContentFlags.

(** [obj.ymap_properties] of the container. *)
Module YmapProperties.
Record t (F : Type) : Type := mk {
  parent : string;
  flags : Z;
  content_flags : ContentFlags.t;
  entities_extents_min : Vector.t F;
  entities_extents_max : Vector.t F;
  streaming_extents_min : Vector.t F;
  streaming_extents_max : Vector.t F;
  block : Block.t
}.
End YmapProperties.

(** The attributes of a [bpy.types.Object] this exporter reads or
    writes.  Every object here carries a mesh.  An object of Blender may
    have no data at all (an empty), and on such an object
    [obj.data.vertices] raises [AttributeError]: the scenes of this
    development have no such object, and what is proved of an export is
    proved of the scenes whose objects carry meshes. *)
Inductive Object (F : Type) : Type := mkObject {
  name : string;
  sollum_type : SollumType;
  location : Vector.t F;
  rotation_euler : Euler.t F;
  scale : Vector.t F;
  dimensions : Vector.t F;
  matrix_world : Matrix F;
  data : Mesh F;
  entity_properties : EntityProperties.t F;
  ymap_properties : YmapProperties.t F;
  model_occl_flags : Z;
  ymap_cargen_properties : CargenProperties.t F;
  children : list (Object F)
}.

Definition set_name {F} (o : Object F) (n : string) : Object F :=
  mkObject n (sollum_type o) (location o) (rotation_euler o) (scale o)
    (dimensions o) (matrix_world o) (data o) (entity_properties o)
    (ymap_properties o) (model_occl_flags o) (ymap_cargen_properties o)
    (children o).

Definition set_data {F} (o : Object F) (m : Mesh F) : Object F :=
  mkObject (name o) (sollum_type o) (location o) (rotation_euler o) (scale o)
    (dimensions o) (matrix_world o) m (entity_properties o)
    (ymap_properties o) (model_occl_flags o) (ymap_cargen_properties o)
    (children o).

Definition set_children {F} (o : Object F) (cs : list (Object F)) : Object F :=
  mkObject (name o) (sollum_type o) (location o) (rotation_euler o) (scale o)
    (dimensions o) (matrix_world o) (data o) (entity_properties o)
    (ymap_properties o) (model_occl_flags o) (ymap_cargen_properties o) cs.

Definition set_ymap_properties {F} (o : Object F) (p : YmapProperties.t F)
  : Object F :=
  mkObject (name o) (sollum_type o) (location o) (rotation_euler o) (scale o)
    (dimensions o) (matrix_world o) (data o) (entity_properties o)
    p (model_occl_flags o) (ymap_cargen_properties o) (children o).

(** [content_flags_toggle.has_occl = True]. *)
Definition set_has_occl {F} (p : YmapProperties.t F) : YmapProperties.t F :=
  YmapProperties.mk (YmapProperties.parent p) (YmapProperties.flags p)
    (ContentFlags.mk true
       (ContentFlags.other_bits (YmapProperties.content_flags p)))
    (YmapProperties.entities_extents_min p)
    (YmapProperties.entities_extents_max p)
    (YmapProperties.streaming_extents_min p)
    (YmapProperties.streaming_extents_max p)
    (YmapProperties.block p).

(** The two extent pairs [generate_ymap_extents] writes. *)
Record Extents (F : Type) : Type := mkExtents {
  new_entities_extents_min : Vector.t F;
  new_entities_extents_max : Vector.t F;
  new_streaming_extents_min : Vector.t F;
  new_streaming_extents_max : Vector.t F
}.

Definition set_extents {F} (p : YmapProperties.t F) (e : Extents F)
  : YmapProperties.t F :=
  YmapProperties.mk (YmapProperties.parent p) (YmapProperties.flags p)
    (YmapProperties.content_flags p)
    (new_entities_extents_min e) (new_entities_extents_max e)
    (new_streaming_extents_min e) (new_streaming_extents_max e)
    (YmapProperties.block p).

(** *** The records of [cwxml/ymap.py] *)

Module BoxOccluder.
Record t : Type := mk {
  center_x : Z;
  center_y : Z;
  center_z : Z;
  length : Z;
  width : Z;
  height : Z;
  sin_z : Z;
  cos_z : Z
}.
End BoxOccluder.

Module OccludeModel.
Record t (F : Type) : Type := mk {
  bmin : Vector.t F;
  bmax : Vector.t F;
  verts : list Byte.byte;
  num_verts_in_bytes : nat;
  num_tris : Z;
  data_size : nat;
  flags : Z
}.
End OccludeModel.

(** [blend_age_layer] and [blend_age_dirt] are assigned for one game
    only; [None] is a field the exporter left as constructed. *)
Module Entity.
Record t (F : Type) : Type := mk {
  type : string;
  archetype_name : string;
  flags : Z;
  guid : Z;
  position : Vector.t F;
  rotation : Quaternion.t F;
  scale_xy : F;
  scale_z : F;
  parent_index : Z;
  lod_dist : F;
  child_lod_dist : F;
  lod_level : string;
  num_children : Z;
  priority_level : string;
  ambient_occlusion_multiplier : Z;
  artificial_ambient_occlusion : Z;
  tint_value : Z;
  blend_age_layer : option Z;
  blend_age_dirt : option Z
}.
End Entity.

Module CarGenerator.
Record t (F : Type) : Type := mk {
  position : Vector.t F;
  orient_x : F;
  orient_y : F;
  perpendicular_length : F;
  car_model : string;
  flags : Z;
  body_color_remap_1 : Z;
  body_color_remap_2 : Z;
  body_color_remap_3 : Z;
  body_color_remap_4 : Z;
  pop_group : string;
  livery : Z
}.
End CarGenerator.

Module CMapData.
Record t (F : Type) : Type := mk {
  name : string;
  parent : string;
  flags : Z;
  content_flags : ContentFlags.t;
  entities_extents_min : Vector.t F;
  entities_extents_max : Vector.t F;
  streaming_extents_min : Vector.t F;
  streaming_extents_max : Vector.t F;
  entities : list (Entity.t F);
  box_occluders : list BoxOccluder.t;
  occlude_models : list (OccludeModel.t F);
  car_generators : list (CarGenerator.t F);
  block : Block.t
}.
End CMapData.

(** *** Collaborators and ambient state *)

(** Code of the add-on outside [src/], and the one [bpy.ops] operator the
    exporter drives.  [generate_ymap_extents] stands for the two extent
    pairs that the helper of that name computes and writes onto the
    container's properties.  [Entity_type] is the [type] attribute of a
    freshly constructed [Entity()], [CMapData_block] the block of a fresh
    [CMapData()]; a fresh [CMapData()] has empty sequences. *)
Class Helpers (F : Type) : Type := {
  remove_number_suffix : string -> string;
  get_extents : Object F -> Vector.t F * Vector.t F;
  get_bound_center_from_bounds : Vector.t F -> Vector.t F -> Vector.t F;
  generate_ymap_extents : Object F -> Extents F;
  SOLLUMZ_UI_NAMES : SollumType -> string;
  quads_convert_to_tris : Mesh F -> Mesh F;
  Entity_type : string;
  CMapData_block : Block.t
}.

(** [get_export_settings()]: the four settings the exporter reads. *)
Record ExportSettings : Type := mkExportSettings {
  ymap_exclude_entities : bool;
  ymap_box_occluders : bool;
  ymap_model_occluders : bool;
  ymap_car_generators : bool
}.

(** The ambient state an export runs in. *)
Record Environment : Type := mkEnvironment {
  export_settings : ExportSettings;
  current_game : SollumzGame
}.

(** What [logger.error] and [logger.warning] receive. *)
Inductive LogEntry : Type :=
| LogError (message : string)
| LogWarning (message : string).

Inductive Exception : Type :=
| AssertionError.

Inductive Outcome (A : Type) : Type :=
| Returned (value : A)
| Raised (e : Exception).

Arguments Raised {A} e.

Section Exporter.
  Context {F : Type} {float_ops : PyFloat F} {numpy : NumPy F}
    {mathutils : MathUtils F} {helpers : Helpers F}.

(** *** Box occluders *)

Definition box_from_obj (obj : Object F) : BoxOccluder.t :=
  let '(bbmin, bbmax) := get_extents obj in
  let center := get_bound_center_from_bounds bbmin bbmax in
  let dimensions := dimensions obj in
  let dir := Vector.mk (float_of_Z 1) (float_of_Z 0) (float_of_Z 0) in
  let dir := rotate dir (rotation_euler obj) in
  let dir := vec_scale dir (float_of_Q (1 # 2)) in
  BoxOccluder.mk
    (py_round (fmul (Vector.x center) (float_of_Z 4)))
    (py_round (fmul (Vector.y center) (float_of_Z 4)))
    (py_round (fmul (Vector.z center) (float_of_Z 4)))
    (py_round (fmul (Vector.x dimensions) (float_of_Z 4)))
    (py_round (fmul (Vector.y dimensions) (float_of_Z 4)))
    (py_round (fmul (Vector.z dimensions) (float_of_Z 4)))
    (py_round (fmul (Vector.x dir) (float_of_Z 32767)))
    (py_round (fmul (Vector.y dir) (float_of_Z 32767))).

(** *** Model occluders *)

(** [triangulate_obj], as far as the attributes of [Object] go: the
    operator rewrites the mesh of [obj] in place.  To run the operator
    the routine also makes [obj] the active object of the view layer,
    takes it into edit mode and back to object mode, and selects all the
    elements of its mesh.  That editor state (active object, mode,
    selection) is no attribute of [Object] and is not followed here. *)
Definition triangulate_obj (obj : Object F) : Object F :=
  set_data obj (quads_convert_to_tris (data obj)).

Definition vertex_tobytes (v : Vector.t F) : list Byte.byte :=
  float32_tobytes (Vector.x v) ++ float32_tobytes (Vector.y v)
    ++ float32_tobytes (Vector.z v).

Definition occlusion_model_obj_get_data_buffer (obj : Object F)
  : list Byte.byte :=
  let mesh := data obj in
  let verts := map (fun co => matmul (matrix_world obj) co) (vertices mesh) in
  let indices := map uint8 (List.concat (polygons mesh)) in
  flat_map vertex_tobytes verts ++ indices.

(** The object after the call, and the record or the failed assertion. *)
Definition model_from_obj (obj : Object F)
  : Object F * Outcome (OccludeModel.t F) :=
  let obj := triangulate_obj obj in
  let '(bmin, bmax) := get_extents obj in
  let verts := occlusion_model_obj_get_data_buffer obj in
  let num_verts_in_bytes := (List.length (vertices (data obj)) * 12)%nat in
  let face_count := List.length (polygons (data obj)) in
  let num_tris := Z.lor (Z.of_nat face_count) 32768 in
  let data_size := List.length verts in
  let model :=
    OccludeModel.mk bmin bmax verts num_verts_in_bytes num_tris data_size
      (model_occl_flags obj) in
  if (data_size =? num_verts_in_bytes + face_count * 3)%nat
  then (obj, Returned model)
  else (obj, Raised AssertionError).

(** *** Entities *)

(** The object after the call and the record.  The object carries the
    name the routine assigns.  Blender keeps the names of objects unique:
    when another object holds the assigned name already, it stores that
    name with a number suffix ([".001"], ...), which the model, with one
    object in hand, does not follow. *)
Definition entity_from_obj (game : SollumzGame) (obj : Object F)
  : Object F * Entity.t F :=
  let obj := set_name obj (replace " (not found)" "" (lower (name obj))) in
  let props := entity_properties obj in
  let type := Entity_type in
  let rotation := to_quaternion (rotation_euler obj) in
  let rotation :=
    if negb (String.eqb type "CMloInstanceDef") then invert rotation
    else rotation in
  let strip_prefix (s : string) := replace "SOLLUMZ_" "" (upper s) in
  let rdr_only (v : Z) :=
    match game with
    | RDR => Some v
    | GTA => None
    end in
  (obj,
   Entity.mk type
     (remove_number_suffix (name obj))
     (EntityProperties.flags props)
     (EntityProperties.guid props)
     (location obj)
     rotation
     (Vector.x (scale obj))
     (Vector.z (scale obj))
     (EntityProperties.parent_index props)
     (EntityProperties.lod_dist props)
     (EntityProperties.child_lod_dist props)
     (strip_prefix (EntityProperties.lod_level props))
     (EntityProperties.num_children props)
     (strip_prefix (EntityProperties.priority_level props))
     (EntityProperties.ambient_occlusion_multiplier props)
     (EntityProperties.artificial_ambient_occlusion props)
     (EntityProperties.tint_value props)
     (rdr_only (EntityProperties.blend_age_layer props))
     (rdr_only (EntityProperties.blend_age_dirt props))).

(** *** Car generators *)

Definition calculate_cargen_orient (obj : Object F) : F * F :=
  let angle := fmul (Euler.z (rotation_euler obj)) (float_of_Z (-1)) in
  (fmul (float_of_Z 5) (math_sin angle), fmul (float_of_Z 5) (math_cos angle)).

Definition cargen_from_obj (obj : Object F) : CarGenerator.t F :=
  let '(orient_x, orient_y) := calculate_cargen_orient obj in
  let props := ymap_cargen_properties obj in
  CarGenerator.mk (location obj) orient_x orient_y
    (CargenProperties.perpendicular_length props)
    (CargenProperties.car_model props)
    (CargenProperties.cargen_flags props)
    (CargenProperties.body_color_remap_1 props)
    (CargenProperties.body_color_remap_2 props)
    (CargenProperties.body_color_remap_3 props)
    (CargenProperties.body_color_remap_4 props)
    (CargenProperties.pop_group props)
    (CargenProperties.livery props).

(** *** The export loop

    What the loop of [ymap_from_object] has built and changed so far:
    the container's properties (the loop sets a toggle on them), the four
    sequences of the record under construction, and the log. *)
Record State : Type := mkState {
  st_properties : YmapProperties.t F;
  st_entities : list (Entity.t F);
  st_box_occluders : list BoxOccluder.t;
  st_occlude_models : list (OccludeModel.t F);
  st_car_generators : list (CarGenerator.t F);
  st_log : list LogEntry
}.

Definition append_entities (st : State) (es : list (Entity.t F)) : State :=
  mkState (st_properties st) (st_entities st ++ es) (st_box_occluders st)
    (st_occlude_models st) (st_car_generators st) (st_log st).

Definition append_box (st : State) (b : BoxOccluder.t) : State :=
  mkState (st_properties st) (st_entities st) (st_box_occluders st ++ [b])
    (st_occlude_models st) (st_car_generators st) (st_log st).

Definition append_model (st : State) (m : OccludeModel.t F) : State :=
  mkState (st_properties st) (st_entities st) (st_box_occluders st)
    (st_occlude_models st ++ [m]) (st_car_generators st) (st_log st).

Definition append_cargen (st : State) (c : CarGenerator.t F) : State :=
  mkState (st_properties st) (st_entities st) (st_box_occluders st)
    (st_occlude_models st) (st_car_generators st ++ [c]) (st_log st).

Definition log (st : State) (entry : LogEntry) : State :=
  mkState (st_properties st) (st_entities st) (st_box_occluders st)
    (st_occlude_models st) (st_car_generators st) (st_log st ++ [entry]).

(** [obj.ymap_properties.content_flags_toggle.has_occl = True]. *)
Definition mark_has_occl (st : State) : State :=
  mkState (set_has_occl (st_properties st)) (st_entities st)
    (st_box_occluders st) (st_occlude_models st) (st_car_generators st)
    (st_log st).

(** [abs(rotation.x) > 0.01 or abs(rotation.y) > 0.01]. *)
Definition tilted (rotation : Euler.t F) : bool :=
  fgtb (fabs (Euler.x rotation)) (float_of_Q (1 # 100))
  || fgtb (fabs (Euler.y rotation)) (float_of_Q (1 # 100)).

Definition wrong_type_message (obj : Object F) (expected : SollumType)
  : string :=
  ("Object " ++ name obj ++ " will be skipped because it is not a "
     ++ SOLLUMZ_UI_NAMES expected ++ " type.")%string.

(** One pass of a conditional block of the loop over [obj.children]:
    from the state and the child to the state, the child as the block
    left it, and the exception that ended the export, if any. *)
Definition Step : Type :=
  State -> Object F -> State * Object F * option Exception.

(** The body of [for entity_obj in child.children]. *)
Definition entities_body (game : SollumzGame) : Step := fun st child =>
  let results := map (entity_from_obj game) (children child) in
  (append_entities st (map snd results),
   set_children child (map fst results), None).

Definition box_occluder_step (st : State) (box_obj : Object F) : State :=
  if tilted (rotation_euler box_obj)
  then log st (LogError
         ("Box occluders only support Z-axis rotation. Skipping "
            ++ name box_obj ++ " due to X/Y rotation.")%string)
  else if sollum_type_eqb (sollum_type box_obj) YMAP_BOX_OCCLUDER
  then append_box st (box_from_obj box_obj)
  else log st (LogWarning (wrong_type_message box_obj YMAP_BOX_OCCLUDER)).

Definition box_occluders_body : Step := fun st child =>
  (fold_left box_occluder_step (children child) (mark_has_occl st),
   child, None).

(** The loop over the children of a model occluder group: the state, the
    children as the loop left them, and the assertion error that stopped
    it, if one was raised.  [len(model_obj.data.vertices)] is taken on an
    object that carries a mesh (see [Object]). *)
Fixpoint model_occluders_loop (st : State) (objs : list (Object F))
  : State * list (Object F) * option Exception :=
  match objs with
  | [] => (st, [], None)
  | model_obj :: rest =>
      if sollum_type_eqb (sollum_type model_obj) YMAP_MODEL_OCCLUDER
      then
        if (256 <? List.length (vertices (data model_obj)))%nat
        then
          let st := log st (LogWarning
            ("Object " ++ name model_obj
               ++ " has too many vertices and will be skipped."
               ++ " It can not have more than 256 vertices.")%string) in
          let '(st, rest, e) := model_occluders_loop st rest in
          (st, model_obj :: rest, e)
        else
          match model_from_obj model_obj with
          | (model_obj, Returned model) =>
              let '(st, rest, e) :=
                model_occluders_loop (append_model st model) rest in
              (st, model_obj :: rest, e)
          | (model_obj, Raised e) => (st, model_obj :: rest, Some e)
          end
      else
        let st := log st (LogWarning
          (wrong_type_message model_obj YMAP_MODEL_OCCLUDER)) in
        let '(st, rest, e) := model_occluders_loop st rest in
        (st, model_obj :: rest, e)
  end.

Definition model_occluders_body : Step := fun st child =>
  let '(st, cs, e) :=
    model_occluders_loop (mark_has_occl st) (children child) in
  (st, set_children child cs, e).

Definition car_generator_step (st : State) (cargen_obj : Object F) : State :=
  if tilted (rotation_euler cargen_obj)
  then log st (LogError
         ("Car generators only support Z-axis rotation. Skipping "
            ++ name cargen_obj ++ " due to X/Y rotation.")%string)
  else if sollum_type_eqb (sollum_type cargen_obj) YMAP_CAR_GENERATOR
  then append_cargen st (cargen_from_obj cargen_obj)
  else log st (LogWarning (wrong_type_message cargen_obj YMAP_CAR_GENERATOR)).

Definition car_generators_body : Step := fun st child =>
  (fold_left car_generator_step (children child) st, child, None).

(** [if setting == False and child.sollum_type == group: body]. *)
Definition guarded (setting : bool) (group : SollumType) (body : Step)
  : Step := fun st child =>
  if negb setting && sollum_type_eqb (sollum_type child) group
  then body st child
  else (st, child, None).

(** One block after the other; an exception ends the pass. *)
Definition and_then (first second : Step) : Step := fun st child =>
  match first st child with
  | (st, child, None) => second st child
  | (st, child, Some e) => (st, child, Some e)
  end.

(** The body of [for child in obj.children]. *)
Definition export_child (env : Environment) : Step :=
  let s := export_settings env in
  and_then
    (guarded (ymap_exclude_entities s) YMAP_ENTITY_GROUP
       (entities_body (current_game env)))
    (and_then
       (guarded (ymap_box_occluders s) YMAP_BOX_OCCLUDER_GROUP
          box_occluders_body)
       (and_then
          (guarded (ymap_model_occluders s) YMAP_MODEL_OCCLUDER_GROUP
             model_occluders_body)
          (guarded (ymap_car_generators s) YMAP_CAR_GENERATOR_GROUP
             car_generators_body))).

Fixpoint export_children (env : Environment) (st : State)
  (cs : list (Object F)) : State * list (Object F) * option Exception :=
  match cs with
  | [] => (st, [], None)
  | child :: rest =>
      match export_child env st child with
      | (st, child, None) =>
          let '(st, rest, e) := export_children env st rest in
          (st, child :: rest, e)
      | (st, child, Some e) => (st, child :: rest, Some e)
      end
  end.

(** A run of the exporter: the container as the run left it, what was
    logged, and the record returned or the exception raised. *)
Record Run : Type := mkRun {
  scene : Object F;
  diagnostics : list LogEntry;
  outcome : Outcome (CMapData.t F)
}.

Definition initial_state (obj : Object F) : State :=
  mkState (ymap_properties obj) [] [] [] [] [].

Definition ymap_from_object (env : Environment) (obj : Object F) : Run :=
  let '(st, cs, e) := export_children env (initial_state obj) (children obj) in
  let obj := set_children (set_ymap_properties obj (st_properties st)) cs in
  match e with
  | Some e => mkRun obj (st_log st) (Raised e)
  | None =>
      let props := ymap_properties obj in
      let name := remove_number_suffix (name obj) in
      let parent := YmapProperties.parent props in
      let flags := YmapProperties.flags props in
      let content_flags := YmapProperties.content_flags props in
      let obj := set_ymap_properties obj
                   (set_extents props (generate_ymap_extents obj)) in
      let props := ymap_properties obj in
      let source := YmapProperties.block props in
      let block :=
        Block.mk (Block.version source)
          (Block.flags CMapData_block)
          (Block.name source)
          (Block.exported_by source)
          (Block.owner source)
          (Block.time source)
          (Some (Block.flags source)) in
      mkRun obj (st_log st)
        (Returned
           (CMapData.mk name parent flags content_flags
              (YmapProperties.entities_extents_min props)
              (YmapProperties.entities_extents_max props)
              (YmapProperties.streaming_extents_min props)
              (YmapProperties.streaming_extents_max props)
              (st_entities st) (st_box_occluders st)
              (st_occlude_models st) (st_car_generators st)
              block))
  end.

(** *** The run, category by category

    What one child of the container contributes to each sequence of the
    record and to the log, written as functions of the child. *)

Inductive Category : Type :=
| Entities
| BoxOccluders
| ModelOccluders
| CarGenerators.

Definition group_type (c : Category) : SollumType :=
  match c with
  | Entities => YMAP_ENTITY_GROUP
  | BoxOccluders => YMAP_BOX_OCCLUDER_GROUP
  | ModelOccluders => YMAP_MODEL_OCCLUDER_GROUP
  | CarGenerators => YMAP_CAR_GENERATOR_GROUP
  end.

(** The setting that takes category [c] out of the export when set. *)
Definition excluded (s : ExportSettings) (c : Category) : bool :=
  match c with
  | Entities => ymap_exclude_entities s
  | BoxOccluders => ymap_box_occluders s
  | ModelOccluders => ymap_model_occluders s
  | CarGenerators => ymap_car_generators s
  end.

(** [setting == False]: category [c] takes part in the export. *)
Definition enabled (s : ExportSettings) (c : Category) : bool :=
  negb (excluded s c).

Definition category_body (game : SollumzGame) (c : Category) : Step :=
  match c with
  | Entities => entities_body game
  | BoxOccluders => box_occluders_body
  | ModelOccluders => model_occluders_body
  | CarGenerators => car_generators_body
  end.

(** [child] is a group of category [c] and [c] is not excluded. *)
Definition visits (s : ExportSettings) (c : Category) (child : Object F)
  : bool :=
  enabled s c && sollum_type_eqb (sollum_type child) (group_type c).

Definition entity_records (game : SollumzGame) (child : Object F)
  : list (Entity.t F) :=
  map (fun entity_obj => snd (entity_from_obj game entity_obj))
    (children child).

Definition box_record_of (box_obj : Object F) : list BoxOccluder.t :=
  if tilted (rotation_euler box_obj) then []
  else if sollum_type_eqb (sollum_type box_obj) YMAP_BOX_OCCLUDER
  then [box_from_obj box_obj] else [].

Definition box_diagnostic_of (box_obj : Object F) : list LogEntry :=
  if tilted (rotation_euler box_obj)
  then [LogError
          ("Box occluders only support Z-axis rotation. Skipping "
             ++ name box_obj ++ " due to X/Y rotation.")%string]
  else if sollum_type_eqb (sollum_type box_obj) YMAP_BOX_OCCLUDER
  then [] else [LogWarning (wrong_type_message box_obj YMAP_BOX_OCCLUDER)].

Definition box_records (child : Object F) : list BoxOccluder.t :=
  flat_map box_record_of (children child).

Definition box_diagnostics (child : Object F) : list LogEntry :=
  flat_map box_diagnostic_of (children child).

Definition cargen_record_of (cargen_obj : Object F)
  : list (CarGenerator.t F) :=
  if tilted (rotation_euler cargen_obj) then []
  else if sollum_type_eqb (sollum_type cargen_obj) YMAP_CAR_GENERATOR
  then [cargen_from_obj cargen_obj] else [].

Definition cargen_diagnostic_of (cargen_obj : Object F) : list LogEntry :=
  if tilted (rotation_euler cargen_obj)
  then [LogError
          ("Car generators only support Z-axis rotation. Skipping "
             ++ name cargen_obj ++ " due to X/Y rotation.")%string]
  else if sollum_type_eqb (sollum_type cargen_obj) YMAP_CAR_GENERATOR
  then []
  else [LogWarning (wrong_type_message cargen_obj YMAP_CAR_GENERATOR)].

Definition cargen_records (child : Object F) : list (CarGenerator.t F) :=
  flat_map cargen_record_of (children child).

Definition cargen_diagnostics (child : Object F) : list LogEntry :=
  flat_map cargen_diagnostic_of (children child).

(** The vertex-count test of the model occluder loop. *)
Definition too_many_vertices (model_obj : Object F) : bool :=
  (256 <? List.length (vertices (data model_obj)))%nat.

(** The model occluder loop calls [model_from_obj] on [model_obj]. *)
Definition encodes_model (model_obj : Object F) : bool :=
  sollum_type_eqb (sollum_type model_obj) YMAP_MODEL_OCCLUDER
  && negb (too_many_vertices model_obj).

Definition model_record_of (model_obj : Object F)
  : list (OccludeModel.t F) :=
  if encodes_model model_obj
  then match snd (model_from_obj model_obj) with
       | Returned model => [model]
       | Raised _ => []
       end
  else [].

Definition model_diagnostic_of (model_obj : Object F) : list LogEntry :=
  if sollum_type_eqb (sollum_type model_obj) YMAP_MODEL_OCCLUDER
  then
    if too_many_vertices model_obj
    then [LogWarning
            ("Object " ++ name model_obj
               ++ " has too many vertices and will be skipped."
               ++ " It can not have more than 256 vertices.")%string]
    else []
  else [LogWarning (wrong_type_message model_obj YMAP_MODEL_OCCLUDER)].

Definition model_records (child : Object F) : list (OccludeModel.t F) :=
  flat_map model_record_of (children child).

Definition model_diagnostics (child : Object F) : list LogEntry :=
  flat_map model_diagnostic_of (children child).

Definition when {A : Type} (b : bool) (l : list A) : list A :=
  if b then l else [].

(** The diagnostics of one child, from the blocks that visit it. *)
Definition child_diagnostics (s : ExportSettings) (child : Object F)
  : list LogEntry :=
  when (visits s BoxOccluders child) (box_diagnostics child)
  ++ when (visits s ModelOccluders child) (model_diagnostics child)
  ++ when (visits s CarGenerators child) (cargen_diagnostics child).

(** There is an occluder group among [cs] that the export visits. *)
Definition visits_occluder_group (s : ExportSettings) (cs : list (Object F))
  : bool :=
  existsb (fun child =>
      visits s BoxOccluders child || visits s ModelOccluders child) cs.

(** Some block of the loop body runs on [child]. *)
Definition visited (s : ExportSettings) (child : Object F) : bool :=
  visits s Entities child || visits s BoxOccluders child
  || visits s ModelOccluders child || visits s CarGenerators child.

(** What the loops produce for one object: a record for one of the
    four sequences, or an entry of the log. *)
Inductive Output : Type :=
| EntityOutput (entity : Entity.t F)
| BoxOccluderOutput (box : BoxOccluder.t)
| OccludeModelOutput (model : OccludeModel.t F)
| CarGeneratorOutput (cargen : CarGenerator.t F)
| DiagnosticOutput (entry : LogEntry).

(** The outputs for the object [g] of the group [child], by the block
    that runs on a group of that role. *)
Definition outputs_of (game : SollumzGame) (child g : Object F)
  : list Output :=
  match sollum_type child with
  | YMAP_ENTITY_GROUP => [EntityOutput (snd (entity_from_obj game g))]
  | YMAP_BOX_OCCLUDER_GROUP =>
      map BoxOccluderOutput (box_record_of g)
        ++ map DiagnosticOutput (box_diagnostic_of g)
  | YMAP_MODEL_OCCLUDER_GROUP =>
      map OccludeModelOutput (model_record_of g)
        ++ map DiagnosticOutput (model_diagnostic_of g)
  | YMAP_CAR_GENERATOR_GROUP =>
      map CarGeneratorOutput (cargen_record_of g)
        ++ map DiagnosticOutput (cargen_diagnostic_of g)
  | _ => []
  end.

(** The outputs for the objects of the visited groups, in the order the
    loops meet them. *)
Definition run_outputs (s : ExportSettings) (game : SollumzGame)
  (cs : list (Object F)) : list Output :=
  flat_map (fun child =>
      when (visited s child)
        (flat_map (outputs_of game child) (children child))) cs.

Definition entities_of (outputs : list Output) : list (Entity.t F) :=
  flat_map (fun output =>
      match output with EntityOutput entity => [entity] | _ => [] end)
    outputs.

Definition box_occluders_of (outputs : list Output) : list BoxOccluder.t :=
  flat_map (fun output =>
      match output with BoxOccluderOutput box => [box] | _ => [] end)
    outputs.

Definition occlude_models_of (outputs : list Output)
  : list (OccludeModel.t F) :=
  flat_map (fun output =>
      match output with OccludeModelOutput model => [model] | _ => [] end)
    outputs.

Definition car_generators_of (outputs : list Output)
  : list (CarGenerator.t F) :=
  flat_map (fun output =>
      match output with CarGeneratorOutput cargen => [cargen] | _ => [] end)
    outputs.

Definition diagnostics_of (outputs : list Output) : list LogEntry :=
  flat_map (fun output =>
      match output with DiagnosticOutput entry => [entry] | _ => [] end)
    outputs.

(** [model_from_obj] returns a record for every model occluder of the
    group that the loop encodes. *)
Definition models_encode (child : Object F) : Prop :=
  Forall (fun g =>
      encodes_model g = true ->
      exists model, snd (model_from_obj g) = Returned model)
    (children child).

(** *** What a run may change in the scene *)

(** A child of the container before and after a run, attribute by
    attribute: only its list of children differs, and there only the
    names of the objects of an entity group (whatever the name stored
    is) and the meshes of the objects of a model occluder group, which
    are as they were or as the operator rewrote them. *)
Definition child_frame (child child' : Object F) : Prop :=
  child' = set_children child (children child')
  /\ match sollum_type child with
     | YMAP_ENTITY_GROUP =>
         Forall2 (fun g g' => g' = set_name g (name g'))
           (children child) (children child')
     | YMAP_MODEL_OCCLUDER_GROUP =>
         Forall2 (fun g g' =>
             g' = g \/ g' = set_data g (quads_convert_to_tris (data g)))
           (children child) (children child')
     | _ => children child' = children child
     end.

(** The container's properties before and after the loop: the occlusion
    toggle may have been set, nothing else differs. *)
Definition properties_frame (p p' : YmapProperties.t F) : Prop :=
  p' = p \/ p' = set_has_occl p.

End Exporter.

End Ymap.

(** ** Sample collaborators and scenes

    Concrete collaborators and small scenes on which the exporters are
    run further down. *)

Module YddSample.
Import Ydd.

Definition wrap32 (h : Z) : Z := h mod 2 ^ 32.

Fixpoint joaat_loop (s : string) (h : Z) : Z :=
  match s with
  | EmptyString => h
  | String c rest =>
      let h := wrap32 (h + Z.of_nat (nat_of_ascii c)) in
      let h := wrap32 (h + Z.shiftl h 10) in
      let h := Z.lxor h (Z.shiftr h 6) in
      joaat_loop rest h
  end.

(** Modelled from the spec: the name-hash primitive of [tools/jenkhash]
    is outside [src/]; the spec describes it as a deterministic,
    order-sensitive 32-bit hash of the joaat kind.  This is Jenkins'
    one-at-a-time hash of the lower-cased name. *)
Definition joaat (s : string) : Z :=
  let h := joaat_loop (lower s) 0 in
  let h := wrap32 (h + Z.shiftl h 3) in
  let h := Z.lxor h (Z.shiftr h 11) in
  wrap32 (h + Z.shiftl h 15).

Definition hex_digit (c : ascii) : option Z :=
  let n := Z.of_nat (nat_of_ascii (lower_char c)) in
  if (48 <=? n) && (n <=? 57) then Some (n - 48)
  else if (97 <=? n) && (n <=? 102) then Some (n - 87)
  else None.

Fixpoint hex_value (s : string) (acc : Z) : Z :=
  match s with
  | EmptyString => acc
  | String c rest =>
      match hex_digit c with
      | Some d => hex_value rest (wrap32 (16 * acc + d))
      | None => acc
      end
  end.

(** Modelled from the spec: the literal variant reads the identifier as
    the hash value itself; here, as hexadecimal digits. *)
Definition hash_literal (s : string) : Z := hex_value s 0.

(** A sample encoder: the record is named after the object, its hash
    identifier is the object's name, and its skeleton is the name of the
    armature it was bound to, the child's own when it is an armature and
    none was passed. *)
Definition sample_drawable_xml (child : Object) (armature_obj : option Object)
  : Drawable string unit :=
  mkDrawable (name child) (name child)
    (match armature_obj with
     | Some a => Some (name a)
     | None => if is_armature child then Some (name child) else None
     end)
    tt.

#[export] Instance sample_collaborators : Collaborators string unit := {
  create_drawable_xml := sample_drawable_xml;
  name_to_hash := joaat;
  name_to_hash_literal := hash_literal
}.

Definition drawable_named (n kind : string) : Object :=
  mkObject n kind DRAWABLE GTA [].

(** Three mesh drawables [b], [a], [c] and an object of another role. *)
Definition letters (game : SollumzGame) : Object :=
  mkObject "pack" "EMPTY" (OTHER_SOLLUM_TYPE "sollumz_drawable_dictionary")
    game
    [drawable_named "b" "MESH"; drawable_named "a" "MESH";
     mkObject "note" "EMPTY" (OTHER_SOLLUM_TYPE "sollumz_none") game [];
     drawable_named "c" "MESH"].

(** The same drawables, parented in another order. *)
Definition letters_shuffled (game : SollumzGame) : Object :=
  mkObject "pack" "EMPTY" (OTHER_SOLLUM_TYPE "sollumz_drawable_dictionary")
    game
    [drawable_named "c" "MESH";
     mkObject "note" "EMPTY" (OTHER_SOLLUM_TYPE "sollumz_none") game [];
     drawable_named "a" "MESH"; drawable_named "b" "MESH"].

(** A rigged drawable [ped] (an armature object) next to a mesh
    drawable [hat]. *)
Definition ped : Object := drawable_named "ped" "ARMATURE".
Definition hat : Object := drawable_named "hat" "MESH".

Definition wardrobe : Object :=
  mkObject "wardrobe" "EMPTY"
    (OTHER_SOLLUM_TYPE "sollumz_drawable_dictionary") GTA [hat; ped].

End YddSample.

Module YmapSample.
Import Ymap.

Local Open Scope R_scope.

(** **** Real numbers as the carrier

    Floats idealised as real numbers: every operation is the exact one,
    and [round] is Python's, to the nearest integer with ties to the even
    one. *)
Definition round_half_even (r : R) : Z :=
  let n := Int_part r in
  let d := r - IZR n in
  if Rlt_dec d (1 / 2) then n
  else if Rlt_dec (1 / 2) d then (n + 1)%Z
  else if Z.even n then n else (n + 1)%Z.

#[export] Instance real_float : PyFloat R := {
  float_of_Z := IZR;
  float_of_Q := Q2R;
  fmul := Rmult;
  fabs := Rabs;
  fgtb := fun a b => if Rgt_dec a b then true else false;
  py_round := round_half_even;
  math_sin := sin;
  math_cos := cos
}.

(** The binary32 pattern of a real number is not computed here: the
    sample scenes are run for the size and the index part of a buffer,
    which do not depend on it. *)
#[export] Instance real_numpy : NumPy R := {
  float32_bits := fun _ => 0%Z
}.

(** [mathutils] in exact arithmetic, for the rotation order XYZ:
    [Vector.rotate] multiplies by the matrix of the Euler angles,
    [to_quaternion] is the product of the three half-angle rotations, and
    [invert] is the conjugate over the squared norm. *)
Definition real_rotate (v : Vector.t R) (e : Euler.t R) : Vector.t R :=
  let ci := cos (Euler.x e) in
  let cj := cos (Euler.y e) in
  let ch := cos (Euler.z e) in
  let si := sin (Euler.x e) in
  let sj := sin (Euler.y e) in
  let sh := sin (Euler.z e) in
  let cc := ci * ch in
  let cs := ci * sh in
  let sc := si * ch in
  let ss := si * sh in
  Vector.mk
    (cj * ch * Vector.x v + (sj * sc - cs) * Vector.y v
       + (sj * cc + ss) * Vector.z v)
    (cj * sh * Vector.x v + (sj * ss + cc) * Vector.y v
       + (sj * cs - sc) * Vector.z v)
    (- sj * Vector.x v + cj * si * Vector.y v + cj * ci * Vector.z v).

Definition real_to_quaternion (e : Euler.t R) : Quaternion.t R :=
  let ci := cos (Euler.x e * / 2) in
  let cj := cos (Euler.y e * / 2) in
  let ch := cos (Euler.z e * / 2) in
  let si := sin (Euler.x e * / 2) in
  let sj := sin (Euler.y e * / 2) in
  let sh := sin (Euler.z e * / 2) in
  let cc := ci * ch in
  let cs := ci * sh in
  let sc := si * ch in
  let ss := si * sh in
  Quaternion.mk (cj * cc + sj * ss) (cj * sc - sj * cs)
    (cj * ss + sj * cc) (cj * cs - sj * sc).

Definition real_invert (q : Quaternion.t R) : Quaternion.t R :=
  let n := Quaternion.w q * Quaternion.w q + Quaternion.x q * Quaternion.x q
           + Quaternion.y q * Quaternion.y q
           + Quaternion.z q * Quaternion.z q in
  Quaternion.mk (Quaternion.w q / n) (- Quaternion.x q / n)
    (- Quaternion.y q / n) (- Quaternion.z q / n).

Definition row_dot (row : list R) (v : Vector.t R) : R :=
  nth 0 row 0 * Vector.x v + nth 1 row 0 * Vector.y v
  + nth 2 row 0 * Vector.z v + nth 3 row 0.

Definition real_matmul (m : Matrix R) (v : Vector.t R) : Vector.t R :=
  Vector.mk (row_dot (nth 0 m []) v) (row_dot (nth 1 m []) v)
    (row_dot (nth 2 m []) v).

#[export] Instance real_mathutils : MathUtils R := {
  rotate := real_rotate;
  to_quaternion := real_to_quaternion;
  invert := real_invert;
  matmul := real_matmul
}.

(** **** Sample helpers *)

Definition is_digit (c : ascii) : bool :=
  let n := nat_of_ascii c in ((48 <=? n) && (n <=? 57))%nat.

(** Modelled from the spec: [remove_number_suffix] of
    [tools/blenderhelper] is outside [src/]; the spec has it strip the
    trailing duplicate marker, a period and three digits. *)
Definition strip_number_suffix (s : string) : string :=
  let n := String.length s in
  match String.get (n - 4) s, String.get (n - 3) s, String.get (n - 2) s,
        String.get (n - 1) s with
  | Some dot, Some a, Some b, Some c =>
      if ((4 <=? n)%nat && Ascii.eqb dot "."%char
          && is_digit a && is_digit b && is_digit c)%bool
      then String.substring 0 (n - 4) s else s
  | _, _, _, _ => s
  end.

(** A box of the object's dimensions around its location. *)
Definition sample_extents (obj : Object R) : Vector.t R * Vector.t R :=
  let l := location obj in
  let d := dimensions obj in
  (Vector.mk (Vector.x l - Vector.x d / 2) (Vector.y l - Vector.y d / 2)
     (Vector.z l - Vector.z d / 2),
   Vector.mk (Vector.x l + Vector.x d / 2) (Vector.y l + Vector.y d / 2)
     (Vector.z l + Vector.z d / 2)).

Definition sample_center (bbmin bbmax : Vector.t R) : Vector.t R :=
  Vector.mk ((Vector.x bbmin + Vector.x bbmax) / 2)
    ((Vector.y bbmin + Vector.y bbmax) / 2)
    ((Vector.z bbmin + Vector.z bbmax) / 2).

Definition sample_ymap_extents (obj : Object R) : Extents R :=
  let '(bbmin, bbmax) := sample_extents obj in
  mkExtents bbmin bbmax bbmin bbmax.

Definition sample_ui_name (t : SollumType) : string :=
  match t with
  | YMAP_BOX_OCCLUDER => "Box Occluder"
  | YMAP_MODEL_OCCLUDER => "Model Occluder"
  | YMAP_CAR_GENERATOR => "Car Generator"
  | _ => "Sollumz Object"
  end.

(** A sample triangulation: each polygon is cut into the fan of
    triangles around its first corner; the vertices stay as they are. *)
Fixpoint fan (first : nat) (rest : list nat) : list (list nat) :=
  match rest with
  | a :: (b :: _) as tail => [first; a; b] :: fan first tail
  | _ => []
  end.

Definition fan_polygon (p : list nat) : list (list nat) :=
  match p with
  | first :: (_ :: _ :: _) as rest => fan first rest
  | _ => [p]
  end.

Definition fan_triangulation (m : Mesh R) : Mesh R :=
  mkMesh (vertices m) (flat_map fan_polygon (polygons m)).

(** An operator that leaves every polygon as it finds it. *)
Definition no_triangulation (m : Mesh R) : Mesh R := m.

Definition sample_block : Block.t := Block.mk "0" "0" "" "" "" "" None.

#[export] Instance sample_helpers : Helpers R := {
  remove_number_suffix := strip_number_suffix;
  get_extents := sample_extents;
  get_bound_center_from_bounds := sample_center;
  generate_ymap_extents := sample_ymap_extents;
  SOLLUMZ_UI_NAMES := sample_ui_name;
  quads_convert_to_tris := fan_triangulation;
  Entity_type := "CEntityDef";
  CMapData_block := sample_block
}.

#[export] Instance careless_helpers : Helpers R | 10 := {
  remove_number_suffix := strip_number_suffix;
  get_extents := sample_extents;
  get_bound_center_from_bounds := sample_center;
  generate_ymap_extents := sample_ymap_extents;
  SOLLUMZ_UI_NAMES := sample_ui_name;
  quads_convert_to_tris := no_triangulation;
  Entity_type := "CEntityDef";
  CMapData_block := sample_block
}.

(** **** Sample scenes *)

Definition origin : Vector.t R := Vector.mk 0 0 0.
Definition level : Euler.t R := Euler.mk 0 0 0.

Definition identity_matrix : Matrix R :=
  [[1; 0; 0; 0]; [0; 1; 0; 0]; [0; 0; 1; 0]; [0; 0; 0; 1]].

Definition no_mesh : Mesh R := mkMesh [] [].

Definition plain_entity_properties : EntityProperties.t R :=
  EntityProperties.mk 0 0 (-1) 100 0 "sollumz_lodtypes_depth_hd" 0
    "sollumz_pri_required" 255 255 0 0 0.

Definition plain_cargen_properties : CargenProperties.t R :=
  CargenProperties.mk 2 "" 0 (-1) (-1) (-1) (-1) "" (-1).

Definition plain_ymap_properties (block_flags : string)
  : YmapProperties.t R :=
  YmapProperties.mk "" 0 (ContentFlags.mk false 0) origin origin origin
    origin (Block.mk "1" block_flags "cell" "Sollumz" "me" "today" None).

(** An object of role [role] at the origin, unrotated, without mesh. *)
Definition object (n : string) (role : SollumType)
  (cs : list (Object R)) : Object R :=
  mkObject n role origin level (Vector.mk 1 1 1) origin identity_matrix
    no_mesh plain_entity_properties (plain_ymap_properties "0") 0%Z
    plain_cargen_properties cs.

Definition with_rotation (o : Object R) (e : Euler.t R) : Object R :=
  mkObject (name o) (sollum_type o) (location o) e (scale o) (dimensions o)
    (matrix_world o) (data o) (entity_properties o) (ymap_properties o)
    (model_occl_flags o) (ymap_cargen_properties o) (children o).

Definition entity_role : SollumType := OTHER_SOLLUM_TYPE "sollumz_ymap_entity".
Definition ymap_role : SollumType := OTHER_SOLLUM_TYPE "sollumz_ymap".

(** An entity imported while its archetype was missing from the scene. *)
Definition tree : Object R := object "Tree (not found)" entity_role [].

(** An entity turned half a turn about the vertical axis. *)
Definition gate : Object R :=
  with_rotation (object "gate" entity_role []) (Euler.mk 0 0 PI).

(** A box occluder tilted by a hundredth of a radian about the Y axis,
    which is within the tolerance. *)
Definition slab : Object R :=
  with_rotation (object "slab" YMAP_BOX_OCCLUDER []) (Euler.mk 0 (1 / 100) 0).

(** A quad, as a model occluder. *)
Definition quad : Mesh R :=
  mkMesh [Vector.mk 0 0 0; Vector.mk 1 0 0; Vector.mk 1 1 0; Vector.mk 0 1 0]
    [[0; 1; 2; 3]%nat].

Definition wall : Object R :=
  set_data (object "wall" YMAP_MODEL_OCCLUDER []) quad.

(** A model occluder with [n] vertices and no polygon. *)
Definition cloud (n : nat) : Object R :=
  set_data (object "cloud" YMAP_MODEL_OCCLUDER [])
    (mkMesh (repeat origin n) []).

Definition entity_group : Object R :=
  object "Entities" YMAP_ENTITY_GROUP [tree].

(** A box occluder group whose one child has another role. *)
Definition stray : Object R := object "stray" entity_role [].

Definition box_group : Object R :=
  object "Box Occluders" YMAP_BOX_OCCLUDER_GROUP [stray].

Definition empty_box_group : Object R :=
  object "Box Occluders" YMAP_BOX_OCCLUDER_GROUP [].

(** Containers: [cell] holds entities, [quarry] an occluder group
    without occluders, [depot] has block flags of its own. *)
Definition cell : Object R := object "cell" ymap_role [entity_group].

Definition quarry : Object R := object "quarry" ymap_role [empty_box_group].

Definition depot : Object R :=
  set_ymap_properties (object "depot" ymap_role [])
    (plain_ymap_properties "2").

(** An entity whose name is already in its exported form. *)
Definition shrub : Object R := object "shrub" entity_role [].

Definition export_nothing : Environment :=
  mkEnvironment (mkExportSettings true true true true) GTA.

Definition export_everything : Environment :=
  mkEnvironment (mkExportSettings false false false false) RDR.

Definition export_no_entities : Environment :=
  mkEnvironment (mkExportSettings true false false false) RDR.

End YmapSample.

(** * Properties *)

Lemma sollum_type_eqb_eq (a b : SollumType) :
  sollum_type_eqb a b = true <-> a = b.
Proof.
  unfold sollum_type_eqb. destruct (SollumType_eq_dec a b); split; congruence.
Qed.

Lemma sollum_type_eqb_refl (a : SollumType) : sollum_type_eqb a a = true.
Proof. now apply sollum_type_eqb_eq. Qed.

(** ** The stable sort *)

Section SortFacts.
  Context {A : Type} (key : A -> Z).

Lemma insert_by_key_perm (x : A) (l : list A) :
  Permutation (x :: l) (insert_by_key key x l).
Proof.
  induction l as [|y l IH]; simpl.
  - apply Permutation_refl.
  - destruct (key x <=? key y).
    + apply Permutation_refl.
    + eapply perm_trans; [apply perm_swap|]. now apply perm_skip.
Qed.

Lemma sort_by_key_perm (l : list A) : Permutation l (sort_by_key key l).
Proof.
  induction l as [|x l IH]; simpl.
  - constructor.
  - eapply perm_trans; [|apply insert_by_key_perm]. now apply perm_skip.
Qed.

Lemma insert_by_key_hd (x y : A) (l : list A) :
  key y <= key x -> HdRel (key_le key) y l ->
  HdRel (key_le key) y (insert_by_key key x l).
Proof.
  intros Hyx Hhd. destruct l as [|z l]; simpl.
  - constructor. exact Hyx.
  - destruct (key x <=? key z); constructor.
    + exact Hyx.
    + now inversion Hhd.
Qed.

Lemma insert_by_key_sorted (x : A) (l : list A) :
  Sorted (key_le key) l -> Sorted (key_le key) (insert_by_key key x l).
Proof.
  induction 1 as [|y l Hs IH Hhd]; simpl.
  - repeat constructor.
  - destruct (key x <=? key y) eqn:E.
    + constructor; [now constructor|]. constructor.
      unfold key_le. now apply Z.leb_le.
    + constructor; [exact IH|]. apply insert_by_key_hd; [|exact Hhd].
      apply Z.leb_gt in E. lia.
Qed.

Lemma sort_by_key_sorted (l : list A) : Sorted (key_le key) (sort_by_key key l).
Proof.
  induction l as [|x l IH]; simpl.
  - constructor.
  - now apply insert_by_key_sorted.
Qed.

Lemma key_le_trans : Relations_1.Transitive (key_le key).
Proof. intros a b c. unfold key_le. lia. Qed.

Lemma sort_by_key_strongly_sorted (l : list A) :
  StronglySorted (key_le key) (sort_by_key key l).
Proof.
  apply Sorted_StronglySorted; [exact key_le_trans|apply sort_by_key_sorted].
Qed.

(** Inserting [x] puts it in front of the records that share its key. *)
Lemma with_key_insert (k : Z) (x : A) (l : list A) :
  with_key key k (insert_by_key key x l) = with_key key k (x :: l).
Proof.
  induction l as [|y l IH]; simpl.
  - reflexivity.
  - destruct (key x <=? key y) eqn:E; [reflexivity|].
    apply Z.leb_gt in E. simpl in *.
    destruct (key y =? k) eqn:Ey, (key x =? k) eqn:Ex;
      rewrite ?Z.eqb_eq, ?Z.eqb_neq in *; try lia;
      rewrite IH; reflexivity.
Qed.

(** Stability: the records of one key keep the order they came in. *)
Lemma sort_by_key_stable (k : Z) (l : list A) :
  with_key key k (sort_by_key key l) = with_key key k l.
Proof.
  induction l as [|x l IH]; simpl; [reflexivity|].
  rewrite with_key_insert. simpl. now rewrite IH.
Qed.

Lemma with_key_in (k : Z) (x : A) (l : list A) :
  In x (with_key key k l) <-> In x l /\ key x = k.
Proof. unfold with_key. rewrite filter_In, Z.eqb_eq. tauto. Qed.

Lemma sorted_head_least (x y : A) (l : list A) :
  Sorted (key_le key) (x :: l) -> In y (x :: l) -> key x <= key y.
Proof.
  intros Hs Hin. apply Sorted_StronglySorted in Hs; [|exact key_le_trans].
  inversion Hs as [|? ? _ Hall]; subst.
  destruct Hin as [->|Hin]; [lia|].
  rewrite Forall_forall in Hall. now apply Hall.
Qed.

(** Two ascending lists that hold, for every key, the same records in
    the same order are one list: a stable sort has a single result. *)
Lemma stable_sorted_unique (l1 l2 : list A) :
  Sorted (key_le key) l1 -> Sorted (key_le key) l2 ->
  (forall k, with_key key k l1 = with_key key k l2) ->
  l1 = l2.
Proof.
  revert l2. induction l1 as [|x l1 IH]; intros l2 H1 H2 Hk.
  - destruct l2 as [|y l2]; [reflexivity|].
    specialize (Hk (key y)). simpl in Hk. now rewrite Z.eqb_refl in Hk.
  - destruct l2 as [|y l2].
    + specialize (Hk (key x)). simpl in Hk. now rewrite Z.eqb_refl in Hk.
    + assert (Hxy : key x <= key y).
      { apply (sorted_head_least (y := y) H1).
        apply (with_key_in (key y)). rewrite Hk. apply with_key_in.
        split; [now left|reflexivity]. }
      assert (Hyx : key y <= key x).
      { apply (sorted_head_least (y := x) H2).
        apply (with_key_in (key x)). rewrite <- Hk. apply with_key_in.
        split; [now left|reflexivity]. }
      assert (Heq : key x = key y) by lia.
      pose proof (Hk (key x)) as Hhead. simpl in Hhead.
      rewrite Z.eqb_refl in Hhead. rewrite <- Heq, Z.eqb_refl in Hhead.
      injection Hhead as -> Htail.
      f_equal. apply IH.
      * now inversion H1.
      * now inversion H2.
      * intros k. specialize (Hk k). simpl in Hk.
        destruct (key y =? k) eqn:E.
        -- apply Z.eqb_eq in E. subst k. exact Htail.
        -- exact Hk.
Qed.

Lemma sort_by_key_of_sorted (l : list A) :
  Sorted (key_le key) l -> sort_by_key key l = l.
Proof.
  intros Hs. apply stable_sorted_unique.
  - apply sort_by_key_sorted.
  - exact Hs.
  - intros k. apply sort_by_key_stable.
Qed.

Lemma sort_by_key_stable_ascending (l : list A) :
  stable_ascending key l (sort_by_key key l).
Proof.
  repeat split.
  - apply sort_by_key_strongly_sorted.
  - apply sort_by_key_perm.
  - intros k. apply sort_by_key_stable.
  - intros l' Hs Hk. apply stable_sorted_unique; [exact Hs| |].
    + apply sort_by_key_sorted.
    + intros k. now rewrite Hk, sort_by_key_stable.
Qed.

End SortFacts.

(** ** The drawable dictionary exporter *)

Section YddFacts.
  Import Ydd.
  Context {Skeleton Geometry : Type} {collab : Collaborators Skeleton Geometry}.

Lemma reference_armature_spec (ydd_obj : Object) :
  reference_armature ydd_obj =
    if is_armature ydd_obj then Some ydd_obj
    else find is_armature (children ydd_obj).
Proof. unfold reference_armature. now destruct (is_armature ydd_obj). Qed.

Lemma encoder_calls_spec (ydd_obj : Object) (exclude_skeleton : bool) :
  encoder_calls ydd_obj exclude_skeleton =
    map (fun child =>
           (child, armature_obj_for (reference_armature ydd_obj) child))
      (filter is_drawable (children ydd_obj)).
Proof.
  unfold encoder_calls, collect. rewrite map_map. reflexivity.
Qed.

(** C7.  The sequence [create_ydd_xml] returns is the collected records
    in ascending order of their hash key: for GTA the name hash of the
    record's name up to its first period, for RDR the record's hash
    identifier read as a literal.  Records of equal key keep the order
    they were collected in, and no other list is such an arrangement, so
    the order is a function of the input alone. *)
Theorem create_ydd_xml_sorted_by_hash (ydd_obj : Object)
  (exclude_skeleton : bool) :
  match sollum_game_type ydd_obj, create_ydd_xml ydd_obj exclude_skeleton with
  | GTA, DrawableDictionary items =>
      stable_ascending
        (fun item => name_to_hash (before_first_dot (xml_name item)))
        (collected ydd_obj exclude_skeleton) items
  | RDR, RDR2DrawableDictionary drawables =>
      stable_ascending
        (fun item => name_to_hash_literal (xml_hash item))
        (collected ydd_obj exclude_skeleton) drawables
  | _, _ => False
  end.
Proof.
  unfold create_ydd_xml.
  destruct (sollum_game_type ydd_obj); apply sort_by_key_stable_ascending.
Qed.

(** C8, as the code has it.  For every child of the drawable role, in
    order, the encoder is called with no armature ([None]) when the child
    is itself an armature object, and with the reference armature
    otherwise: the container if it is an armature, else its first
    armature child, if any.  The records collected are the results of
    exactly these calls, renamed and stripped of their skeleton as the
    loop does. *)
Theorem encoder_receives_reference_armature (ydd_obj : Object)
  (exclude_skeleton : bool) :
  encoder_calls ydd_obj exclude_skeleton =
    map (fun child =>
           (child,
            if is_armature child then None
            else if is_armature ydd_obj then Some ydd_obj
            else find is_armature (children ydd_obj)))
      (filter is_drawable (children ydd_obj))
  /\ collected ydd_obj exclude_skeleton =
      map (fun call =>
             let raw := create_drawable_xml (fst call) (snd call) in
             mkDrawable (xml_name raw ++ ".#dd")%string (xml_hash raw)
               (if exclude_skeleton || negb (is_armature (fst call))
                then None else xml_skeleton raw)
               (xml_geometry raw))
        (encoder_calls ydd_obj exclude_skeleton).
Proof.
  split.
  - rewrite encoder_calls_spec. apply map_ext. intros child.
    unfold armature_obj_for. rewrite reference_armature_spec.
    now destruct (is_armature child).
  - unfold collected, encoder_calls, collect. rewrite !map_map.
    apply map_ext. intros child. unfold export_child. simpl.
    now destruct (exclude_skeleton || negb (is_armature child)).
Qed.

End YddFacts.

(** The spec's example: drawables named [b], [a], [c] come out in
    ascending order of the hash of their names. *)
Example letters_sorted :
  map (@Ydd.xml_name _ _)
    (Ydd.ydd_items
       (Ydd.create_ydd_xml (collab := YddSample.sample_collaborators)
          (YddSample.letters GTA) false))
  = ["b.#dd"; "a.#dd"; "c.#dd"]
  /\ map YddSample.joaat ["b"; "a"; "c"] = [14385563; 3392050242; 4005191001].
Proof. split; vm_compute; reflexivity. Qed.

(** C8, as the spec words it, fails on [wardrobe]: [ped] is a drawable
    child and an armature object, and the encoder is called for it with
    no armature, not with [ped]. *)
Lemma armature_child_is_passed_no_armature :
  In YddSample.ped (Ydd.children YddSample.wardrobe)
  /\ Ydd.is_drawable YddSample.ped = true
  /\ Ydd.is_armature YddSample.ped = true
  /\ Ydd.encoder_calls (collab := YddSample.sample_collaborators)
       YddSample.wardrobe false
     = [(YddSample.hat, Some YddSample.ped); (YddSample.ped, None)]
  /\ (None : option Ydd.Object) <> Some YddSample.ped.
Proof.
  repeat split; try (vm_compute; reflexivity).
  - simpl. auto.
  - discriminate.
Qed.

(** ** The map data exporter *)

Section YmapFacts.
  Import Ymap.
  Context {F : Type} {float_ops : PyFloat F} {numpy : NumPy F}
    {mathutils : MathUtils F} {helpers : Helpers F}.

Lemma fold_box_occluder_step (cs : list (Object F)) (st : State) :
  fold_left box_occluder_step cs st =
    mkState (st_properties st) (st_entities st)
      (st_box_occluders st ++ flat_map box_record_of cs)
      (st_occlude_models st) (st_car_generators st)
      (st_log st ++ flat_map box_diagnostic_of cs).
Proof.
  revert st. induction cs as [|box_obj cs IH]; intros st; simpl.
  - rewrite !app_nil_r. now destruct st.
  - rewrite IH. unfold box_occluder_step, box_record_of, box_diagnostic_of.
    destruct (tilted (rotation_euler box_obj));
      [|destruct (sollum_type_eqb (sollum_type box_obj) YMAP_BOX_OCCLUDER)];
      simpl; rewrite <- ?app_assoc, ?app_nil_r; reflexivity.
Qed.

Lemma fold_car_generator_step (cs : list (Object F)) (st : State) :
  fold_left car_generator_step cs st =
    mkState (st_properties st) (st_entities st) (st_box_occluders st)
      (st_occlude_models st)
      (st_car_generators st ++ flat_map cargen_record_of cs)
      (st_log st ++ flat_map cargen_diagnostic_of cs).
Proof.
  revert st. induction cs as [|cargen_obj cs IH]; intros st; simpl.
  - rewrite !app_nil_r. now destruct st.
  - rewrite IH.
    unfold car_generator_step, cargen_record_of, cargen_diagnostic_of.
    destruct (tilted (rotation_euler cargen_obj));
      [|destruct (sollum_type_eqb (sollum_type cargen_obj) YMAP_CAR_GENERATOR)];
      simpl; rewrite <- ?app_assoc, ?app_nil_r; reflexivity.
Qed.

Lemma model_from_obj_scene (obj : Object F) :
  fst (model_from_obj obj) = triangulate_obj obj.
Proof.
  unfold model_from_obj.
  destruct (get_extents (triangulate_obj obj)) as [bmin bmax].
  match goal with |- context [if ?b then _ else _] => destruct b end;
    reflexivity.
Qed.

(** A model occluder loop that ran to its end. *)
Lemma model_occluders_loop_returns (objs : list (Object F)) :
  forall st st' objs',
  model_occluders_loop st objs = (st', objs', None) ->
  st' = mkState (st_properties st) (st_entities st) (st_box_occluders st)
          (st_occlude_models st ++ flat_map model_record_of objs)
          (st_car_generators st)
          (st_log st ++ flat_map model_diagnostic_of objs)
  /\ objs' = map (fun g => if encodes_model g then triangulate_obj g else g)
               objs.
Proof.
  induction objs as [|g objs IH]; intros st st' objs' Hrun; simpl in Hrun.
  - injection Hrun as <- <-. simpl. rewrite !app_nil_r. now destruct st.
  - unfold model_record_of, model_diagnostic_of, encodes_model,
      too_many_vertices. simpl.
    destruct (sollum_type_eqb (sollum_type g) YMAP_MODEL_OCCLUDER); simpl.
    + destruct (256 <? List.length (vertices (data g)))%nat; simpl.
      * destruct (model_occluders_loop _ objs) as [[st1 r1] e1] eqn:Hrest.
        injection Hrun as <- <- ->.
        destruct (IH _ _ _ Hrest) as [-> ->]. simpl.
        rewrite <- app_assoc. split; reflexivity.
      * pose proof (model_from_obj_scene g) as Hscene.
        destruct (model_from_obj g) as [g' [model|e]]; simpl in *;
          [|discriminate].
        destruct (model_occluders_loop _ objs) as [[st1 r1] e1] eqn:Hrest.
        injection Hrun as <- <- ->.
        destruct (IH _ _ _ Hrest) as [-> ->]. simpl.
        rewrite <- app_assoc, Hscene. split; reflexivity.
    + destruct (model_occluders_loop _ objs) as [[st1 r1] e1] eqn:Hrest.
      injection Hrun as <- <- ->.
      destruct (IH _ _ _ Hrest) as [-> ->]. simpl.
      rewrite <- app_assoc. split; reflexivity.
Qed.

(** What a model occluder loop leaves alone, however it ends. *)
Lemma model_occluders_loop_frame (objs : list (Object F)) :
  forall st st' objs' e,
  model_occluders_loop st objs = (st', objs', e) ->
  st_properties st' = st_properties st
  /\ Forall2 (fun g g' => g' = g \/ g' = triangulate_obj g) objs objs'.
Proof.
  induction objs as [|g objs IH]; intros st st' objs' e Hrun; simpl in Hrun.
  - injection Hrun as <- <- <-. split; [reflexivity|constructor].
  - destruct (sollum_type_eqb (sollum_type g) YMAP_MODEL_OCCLUDER).
    + destruct (256 <? List.length (vertices (data g)))%nat.
      * destruct (model_occluders_loop _ objs) as [[st1 r1] e1] eqn:Hrest.
        injection Hrun as <- <- <-.
        destruct (IH _ _ _ _ Hrest) as [Hp Hf]. simpl in Hp.
        split; [exact Hp|]. constructor; [now left|exact Hf].
      * pose proof (model_from_obj_scene g) as Hscene.
        destruct (model_from_obj g) as [g' [model|e']]; simpl in *.
        -- destruct (model_occluders_loop _ objs) as [[st1 r1] e1] eqn:Hrest.
           injection Hrun as <- <- <-.
           destruct (IH _ _ _ _ Hrest) as [Hp Hf]. simpl in Hp.
           split; [exact Hp|]. constructor; [now right|exact Hf].
        -- injection Hrun as <- <- <-. split; [reflexivity|].
           constructor; [now right|].
           clear. induction objs; constructor; auto.
    + destruct (model_occluders_loop _ objs) as [[st1 r1] e1] eqn:Hrest.
      injection Hrun as <- <- <-.
      destruct (IH _ _ _ _ Hrest) as [Hp Hf]. simpl in Hp.
      split; [exact Hp|]. constructor; [now left|exact Hf].
Qed.

(** The four blocks of the loop body test for four different roles, so
    at most one of them runs, and which one is read off the child's role. *)
Lemma export_child_cases (env : Environment) (st : State) (child : Object F) :
  export_child env st child =
    let s := export_settings env in
    match sollum_type child with
    | YMAP_ENTITY_GROUP =>
        if ymap_exclude_entities s then (st, child, None)
        else entities_body (current_game env) st child
    | YMAP_BOX_OCCLUDER_GROUP =>
        if ymap_box_occluders s then (st, child, None)
        else box_occluders_body st child
    | YMAP_MODEL_OCCLUDER_GROUP =>
        if ymap_model_occluders s then (st, child, None)
        else model_occluders_body st child
    | YMAP_CAR_GENERATOR_GROUP =>
        if ymap_car_generators s then (st, child, None)
        else car_generators_body st child
    | _ => (st, child, None)
    end.
Proof.
  unfold export_child, and_then, guarded.
  destruct (export_settings env) as [xe xb xm xc]. simpl.
  destruct (sollum_type child) eqn:E;
    destruct xe, xb, xm, xc;
    repeat first [rewrite E | progress simpl]; try reflexivity;
    unfold model_occluders_body;
    destruct (model_occluders_loop (mark_has_occl st) (children child))
      as [[st1 cs1] [e1|]];
    repeat first [rewrite E | progress simpl]; reflexivity.
Qed.

(** One pass of the loop body that raised nothing, field by field. *)
Lemma export_child_returns (env : Environment) (st st' : State)
  (child child' : Object F) :
  export_child env st child = (st', child', None) ->
  let s := export_settings env in
  st' = mkState
          (if visits s BoxOccluders child || visits s ModelOccluders child
           then set_has_occl (st_properties st) else st_properties st)
          (st_entities st
             ++ when (visits s Entities child)
                  (entity_records (current_game env) child))
          (st_box_occluders st
             ++ when (visits s BoxOccluders child) (box_records child))
          (st_occlude_models st
             ++ when (visits s ModelOccluders child) (model_records child))
          (st_car_generators st
             ++ when (visits s CarGenerators child) (cargen_records child))
          (st_log st ++ child_diagnostics s child).
Proof.
  rewrite export_child_cases. unfold child_diagnostics, visits, enabled.
  destruct (export_settings env) as [xe xb xm xc]. simpl.
  destruct (sollum_type child) eqn:E; decide_roles;
    rewrite ?andb_false_r, ?andb_true_r; simpl;
    try (intros H; injection H as <- <-; rewrite ?app_nil_r;
         now destruct st).
  - destruct xe; simpl; intros H; injection H as <- <-;
      rewrite ?app_nil_r; [now destruct st|].
    unfold entity_records. rewrite map_map. reflexivity.
  - destruct xb; simpl; intros H; injection H as <- <-;
      rewrite ?app_nil_r; [now destruct st|].
    rewrite fold_box_occluder_step. simpl. rewrite ?app_nil_r. reflexivity.
  - destruct xm; simpl; [intros H; injection H as <- <-;
      rewrite ?app_nil_r; now destruct st|].
    unfold model_occluders_body.
    destruct (model_occluders_loop (mark_has_occl st) (children child))
      as [[st1 cs1] e1] eqn:Hloop.
    intros H; injection H as <- <- ->.
    destruct (model_occluders_loop_returns _ _ Hloop) as [-> _]. simpl.
    rewrite ?app_nil_r. reflexivity.
  - destruct xc; simpl; intros H; injection H as <- <-;
      rewrite ?app_nil_r; [now destruct st|].
    rewrite fold_car_generator_step. simpl. rewrite ?app_nil_r. reflexivity.
Qed.

(** The whole loop, when nothing was raised, field by field. *)
Lemma export_children_returns (env : Environment) (cs : list (Object F)) :
  forall st st' cs',
  export_children env st cs = (st', cs', None) ->
  let s := export_settings env in
  st' = mkState
          (if visits_occluder_group s cs
           then set_has_occl (st_properties st) else st_properties st)
          (st_entities st
             ++ flat_map (fun child =>
                  when (visits s Entities child)
                    (entity_records (current_game env) child)) cs)
          (st_box_occluders st
             ++ flat_map (fun child =>
                  when (visits s BoxOccluders child) (box_records child)) cs)
          (st_occlude_models st
             ++ flat_map (fun child =>
                  when (visits s ModelOccluders child) (model_records child))
                  cs)
          (st_car_generators st
             ++ flat_map (fun child =>
                  when (visits s CarGenerators child) (cargen_records child))
                  cs)
          (st_log st ++ flat_map (child_diagnostics s) cs).
Proof.
  induction cs as [|child cs IH]; intros st st' cs' Hrun; simpl in Hrun.
  - injection Hrun as <- <-. simpl. rewrite !app_nil_r. now destruct st.
  - destruct (export_child env st child) as [[st1 child1] [e|]] eqn:Hchild;
      [discriminate|].
    destruct (export_children env st1 cs) as [[st2 rest] e2] eqn:Hrest.
    injection Hrun as <- <- ->.
    apply export_child_returns in Hchild. apply IH in Hrest.
    subst st2 st1. simpl. rewrite <- !app_assoc. f_equal.
    unfold visits_occluder_group.
    destruct (visits _ BoxOccluders child || visits _ ModelOccluders child);
      destruct (existsb _ cs); reflexivity.
Qed.

Lemma entity_from_obj_scene (game : SollumzGame) (g : Object F) :
  fst (entity_from_obj game g) =
    set_name g (replace " (not found)" "" (lower (name g))).
Proof. reflexivity. Qed.

Lemma set_name_same (o : Object F) : o = set_name o (name o).
Proof. now destruct o. Qed.

Lemma set_children_same (o : Object F) : set_children o (children o) = o.
Proof. now destruct o. Qed.

Lemma Forall2_same {A : Type} (R : A -> A -> Prop) (l : list A) :
  (forall a, R a a) -> Forall2 R l l.
Proof. intros HR. induction l; constructor; auto. Qed.

Lemma child_frame_refl (child : Object F) : child_frame child child.
Proof.
  split; [now rewrite set_children_same|].
  destruct (sollum_type child); try reflexivity;
    apply Forall2_same; intros g; [apply set_name_same|now left].
Qed.

Lemma properties_frame_trans (p q r : YmapProperties.t F) :
  properties_frame p q -> properties_frame q r -> properties_frame p r.
Proof.
  unfold properties_frame. intros [->| ->] [->| ->]; auto.
Qed.

(** What one pass of the loop body leaves alone, however it ends. *)
Lemma export_child_frame (env : Environment) (st st' : State)
  (child child' : Object F) (e : option Exception) :
  export_child env st child = (st', child', e) ->
  child_frame child child'
  /\ properties_frame (st_properties st) (st_properties st').
Proof.
  rewrite export_child_cases. unfold child_frame, properties_frame.
  destruct (export_settings env) as [xe xb xm xc]. simpl.
  destruct (sollum_type child) eqn:E;
    try (intros H; injection H as <- <- <-;
         rewrite set_children_same; now auto).
  - destruct xe; intros H; injection H as <- <- <-; simpl.
    + rewrite set_children_same. split; [|now left].
      split; [reflexivity|]. apply Forall2_same. apply set_name_same.
    + split; [|now left]. split; [reflexivity|].
      rewrite map_map. clear. induction (children child); simpl;
        constructor; auto.
  - destruct xb; intros H; injection H as <- <- <-; simpl;
      rewrite set_children_same; [now auto|].
    rewrite fold_box_occluder_step. simpl. auto.
  - destruct xm; [intros H; injection H as <- <- <-;
      rewrite set_children_same; split; [|now left];
      split; [reflexivity|]; apply Forall2_same; intros; now left|].
    unfold model_occluders_body.
    destruct (model_occluders_loop (mark_has_occl st) (children child))
      as [[st1 cs1] e1] eqn:Hloop.
    intros H; injection H as <- <- <-.
    destruct (model_occluders_loop_frame _ _ Hloop) as [Hp Hf]. simpl in *.
    rewrite Hp. auto.
  - destruct xc; intros H; injection H as <- <- <-; simpl;
      rewrite set_children_same; [now auto|].
    rewrite fold_car_generator_step. simpl. auto.
Qed.

Lemma export_children_frame (env : Environment) (cs : list (Object F)) :
  forall st st' cs' e,
  export_children env st cs = (st', cs', e) ->
  Forall2 child_frame cs cs'
  /\ properties_frame (st_properties st) (st_properties st').
Proof.
  induction cs as [|child cs IH]; intros st st' cs' e Hrun; simpl in Hrun.
  - injection Hrun as <- <- <-. split; [constructor|now left].
  - destruct (export_child env st child) as [[st1 child1] [e1|]] eqn:Hchild.
    + injection Hrun as <- <- <-.
      destruct (export_child_frame _ _ _ Hchild) as [Hc Hp].
      split; [|exact Hp]. constructor; [exact Hc|].
      apply Forall2_same. apply child_frame_refl.
    + destruct (export_children env st1 cs) as [[st2 rest] e2] eqn:Hrest.
      injection Hrun as <- <- <-.
      destruct (export_child_frame _ _ _ Hchild) as [Hc Hp].
      destruct (IH _ _ _ _ Hrest) as [Hcs Hp'].
      split; [now constructor|]. eapply properties_frame_trans; eauto.
Qed.

Lemma visits_disabled (s : ExportSettings) (c : Category) (child : Object F) :
  enabled s c = false -> visits s c child = false.
Proof. unfold visits. now intros ->. Qed.

Lemma flat_map_when_disabled {B : Type} (s : ExportSettings) (c : Category)
  (f : Object F -> list B) (l : list (Object F)) :
  enabled s c = false ->
  flat_map (fun child => when (visits s c child) (f child)) l = [].
Proof.
  intros Hx. induction l as [|child l IH]; simpl; [reflexivity|].
  now rewrite (visits_disabled _ _ _ Hx), IH.
Qed.

(** C1.  Each category is gated by a setting of its own, and a category
    is enabled when its setting is [False] ([enabled]: the settings name
    what to leave out).  A pass of the loop body over a group of a
    disabled category changes nothing: no record is appended, no
    diagnostic is logged, no toggle is set, and the group and its
    children are as they were.  Over a group of an enabled category the
    pass is the loop over the group's children.  Hence, in the record
    returned, each sequence holds what the enabled groups of its category
    contribute, in order, and is empty when the category is disabled; the
    log holds the diagnostics of the visited groups only. *)
Theorem settings_gate_categories (env : Environment) (obj : Object F) :
  let s := export_settings env in
  let game := current_game env in
  (forall st child c, sollum_type child = group_type c ->
     export_child env st child =
       if enabled s c then category_body game c st child
       else (st, child, None))
  /\ match outcome (ymap_from_object env obj) with
     | Returned ymap =>
         CMapData.entities ymap =
           flat_map (fun child =>
               when (visits s Entities child) (entity_records game child))
             (children obj)
         /\ CMapData.box_occluders ymap =
             flat_map (fun child =>
                 when (visits s BoxOccluders child) (box_records child))
               (children obj)
         /\ CMapData.occlude_models ymap =
             flat_map (fun child =>
                 when (visits s ModelOccluders child) (model_records child))
               (children obj)
         /\ CMapData.car_generators ymap =
             flat_map (fun child =>
                 when (visits s CarGenerators child) (cargen_records child))
               (children obj)
         /\ diagnostics (ymap_from_object env obj) =
             flat_map (child_diagnostics s) (children obj)
         /\ (enabled s Entities = false -> CMapData.entities ymap = [])
         /\ (enabled s BoxOccluders = false ->
             CMapData.box_occluders ymap = [])
         /\ (enabled s ModelOccluders = false ->
             CMapData.occlude_models ymap = [])
         /\ (enabled s CarGenerators = false ->
             CMapData.car_generators ymap = [])
     | Raised _ => True
     end.
Proof.
  intros s game. split.
  - intros st child c Hc. rewrite export_child_cases, Hc.
    unfold enabled, excluded. subst s game.
    destruct (export_settings env) as [xe xb xm xc].
    destruct c; simpl; [destruct xe|destruct xb|destruct xm|destruct xc];
      reflexivity.
  - unfold ymap_from_object.
    destruct (export_children env (initial_state obj) (children obj))
      as [[st cs] [e|]] eqn:Hrun; simpl; [exact I|].
    apply export_children_returns in Hrun. subst st. simpl.
    fold s game. repeat split; try reflexivity; intros Hx.
    + apply (flat_map_when_disabled s Entities _ _ Hx).
    + apply (flat_map_when_disabled s BoxOccluders _ _ Hx).
    + apply (flat_map_when_disabled s ModelOccluders _ _ Hx).
    + apply (flat_map_when_disabled s CarGenerators _ _ Hx).
Qed.

Lemma properties_frame_block (p p' : YmapProperties.t F) :
  properties_frame p p' -> YmapProperties.block p' = YmapProperties.block p.
Proof. now intros [->| ->]. Qed.

(** C3, as the code has it.  Of the six block fields of the record, five
    are the container's: version, name, exporter tag, owner and
    timestamp.  The record's block flags are those of a freshly
    constructed record; the container's block flags go to an attribute
    named [versiflagson]. *)
Theorem block_flags_are_not_copied (env : Environment) (obj : Object F) :
  match outcome (ymap_from_object env obj) with
  | Returned ymap =>
      let source := YmapProperties.block (ymap_properties obj) in
      let block := CMapData.block ymap in
      Block.version block = Block.version source
      /\ Block.name block = Block.name source
      /\ Block.exported_by block = Block.exported_by source
      /\ Block.owner block = Block.owner source
      /\ Block.time block = Block.time source
      /\ Block.flags block = Block.flags CMapData_block
      /\ Block.versiflagson block = Some (Block.flags source)
  | Raised _ => True
  end.
Proof.
  unfold ymap_from_object.
  destruct (export_children env (initial_state obj) (children obj))
    as [[st cs] [e|]] eqn:Hrun; simpl; [exact I|].
  destruct (export_children_frame _ _ _ Hrun) as [_ Hp].
  apply properties_frame_block in Hp. simpl in Hp. rewrite Hp.
  repeat split; reflexivity.
Qed.

Lemma flat_map_when_visits {B : Type} (s : ExportSettings) (c : Category)
  (f : Object F -> list B) (l : list (Object F)) :
  flat_map (fun child => when (visits s c child) (f child)) l <> [] ->
  existsb (visits s c) l = true.
Proof.
  induction l as [|child l IH]; simpl; [congruence|].
  destruct (visits s c child); simpl; auto.
Qed.

Lemma existsb_orb {A : Type} (f g : A -> bool) (l : list A) :
  existsb (fun a => f a || g a) l = existsb f l || existsb g l.
Proof.
  induction l as [|a l IH]; simpl; [reflexivity|]. rewrite IH.
  destruct (f a), (g a), (existsb f l), (existsb g l); reflexivity.
Qed.

(** C4, as the code has it.  The occlusion flag of the record is set
    when it was already set on the container or when the export visits a
    box occluder group or a model occluder group, whatever the group
    holds and whether or not any of its children is encoded; the export
    never clears it.  So an occluder in the record implies the flag, and
    not the other way round. *)
Theorem has_occl_marks_visited_groups (env : Environment) (obj : Object F) :
  match outcome (ymap_from_object env obj) with
  | Returned ymap =>
      ContentFlags.has_occl (CMapData.content_flags ymap) =
        ContentFlags.has_occl
          (YmapProperties.content_flags (ymap_properties obj))
        || visits_occluder_group (export_settings env) (children obj)
      /\ (CMapData.box_occluders ymap <> []
            \/ CMapData.occlude_models ymap <> [] ->
          ContentFlags.has_occl (CMapData.content_flags ymap) = true)
  | Raised _ => True
  end.
Proof.
  unfold ymap_from_object.
  destruct (export_children env (initial_state obj) (children obj))
    as [[st cs] [e|]] eqn:Hrun; simpl; [exact I|].
  apply export_children_returns in Hrun. subst st. simpl.
  assert (Hflag :
    ContentFlags.has_occl
      (YmapProperties.content_flags
         (if visits_occluder_group (export_settings env) (children obj)
          then set_has_occl (ymap_properties obj) else ymap_properties obj))
    = ContentFlags.has_occl
        (YmapProperties.content_flags (ymap_properties obj))
      || visits_occluder_group (export_settings env) (children obj)).
  { destruct (visits_occluder_group _ _); simpl;
      [now rewrite orb_true_r|now rewrite orb_false_r]. }
  split; [exact Hflag|]. rewrite Hflag.
  unfold visits_occluder_group. rewrite existsb_orb.
  intros [Hbox|Hmodel].
  - apply flat_map_when_visits in Hbox. rewrite Hbox.
    now rewrite orb_true_r.
  - apply flat_map_when_visits in Hmodel. rewrite Hmodel.
    now rewrite !orb_true_r.
Qed.


(** *** Model occluders: the packed buffer *)

Lemma float32_tobytes_length (f : F) : List.length (float32_tobytes f) = 4%nat.
Proof. reflexivity. Qed.

Lemma vertex_tobytes_length (v : Vector.t F) :
  List.length (vertex_tobytes v) = 12%nat.
Proof.
  unfold vertex_tobytes. rewrite !length_app, !float32_tobytes_length.
  reflexivity.
Qed.

Lemma flat_map_vertex_tobytes_length (vs : list (Vector.t F)) :
  List.length (flat_map vertex_tobytes vs) = (List.length vs * 12)%nat.
Proof.
  induction vs as [|v vs IH]; [reflexivity|]. cbn [flat_map].
  rewrite length_app, vertex_tobytes_length, IH. reflexivity.
Qed.

Lemma concat_length {A : Type} (ls : list (list A)) :
  List.length (List.concat ls) = list_sum (map (@List.length A) ls).
Proof.
  induction ls as [|l ls IH]; simpl; [reflexivity|].
  now rewrite length_app, IH.
Qed.

(** Twelve bytes a vertex, one byte a polygon corner. *)
Lemma data_buffer_length (obj : Object F) :
  List.length (occlusion_model_obj_get_data_buffer obj) =
    (List.length (vertices (data obj)) * 12
     + list_sum (map (@List.length nat) (polygons (data obj))))%nat.
Proof.
  unfold occlusion_model_obj_get_data_buffer.
  rewrite length_app, flat_map_vertex_tobytes_length, !length_map.
  now rewrite concat_length.
Qed.

Lemma list_sum_triangles (ps : list (list nat)) :
  Forall (fun p => (3 <= List.length p)%nat) ps ->
  (List.length ps * 3 <= list_sum (map (@List.length nat) ps))%nat
  /\ (Exists (fun p => List.length p <> 3%nat) ps ->
      list_sum (map (@List.length nat) ps) <> (List.length ps * 3)%nat).
Proof.
  induction 1 as [|p ps Hp Hall [IHle IHne]]; simpl.
  - split; [lia|]. intros Hex. inversion Hex.
  - split; [lia|]. intros Hex.
    inversion Hex as [? ? Hne|? ? Hrest]; subst; [lia|].
    specialize (IHne Hrest). lia.
Qed.

(** C5.  [model_from_obj] returns a record only when the buffer it packed
    has [vertexCount*12 + polygonCount*3] bytes, counted on the mesh as
    triangulated, and the record then carries that buffer, its size and
    the vertex byte count; when the sizes differ it raises
    [AssertionError] and returns no record.  The buffer always has twelve
    bytes a vertex and one byte a polygon corner, so a polygon left with
    more than three corners makes the sizes differ. *)
Theorem model_from_obj_buffer_size (obj : Object F) :
  let after := fst (model_from_obj obj) in
  let vertex_count := List.length (vertices (data after)) in
  let polygon_count := List.length (polygons (data after)) in
  let buffer := occlusion_model_obj_get_data_buffer after in
  after = triangulate_obj obj
  /\ List.length buffer =
      (vertex_count * 12
       + list_sum (map (@List.length nat) (polygons (data after))))%nat
  /\ match snd (model_from_obj obj) with
     | Returned model =>
         OccludeModel.verts model = buffer
         /\ List.length (OccludeModel.verts model) =
             (vertex_count * 12 + polygon_count * 3)%nat
         /\ OccludeModel.data_size model =
             List.length (OccludeModel.verts model)
         /\ OccludeModel.num_verts_in_bytes model = (vertex_count * 12)%nat
         /\ OccludeModel.num_tris model =
             Z.lor (Z.of_nat polygon_count) 32768
     | Raised e =>
         e = AssertionError
         /\ List.length buffer <> (vertex_count * 12 + polygon_count * 3)%nat
     end
  /\ (Forall (fun p => (3 <= List.length p)%nat) (polygons (data after)) ->
      Exists (fun p => List.length p <> 3%nat) (polygons (data after)) ->
      snd (model_from_obj obj) = Raised AssertionError).
Proof.
  intros after vertex_count polygon_count buffer.
  assert (Hafter : after = triangulate_obj obj)
    by apply model_from_obj_scene.
  assert (Hlen : List.length buffer =
      (vertex_count * 12
       + list_sum (map (@List.length nat) (polygons (data after))))%nat)
    by apply data_buffer_length.
  assert (Hrun : snd (model_from_obj obj) =
      if (List.length buffer =? vertex_count * 12 + polygon_count * 3)%nat
      then Returned
             (OccludeModel.mk (fst (get_extents after))
                (snd (get_extents after)) buffer (vertex_count * 12)
                (Z.lor (Z.of_nat polygon_count) 32768) (List.length buffer)
                (model_occl_flags after))
      else Raised AssertionError).
  { subst buffer vertex_count polygon_count. rewrite Hafter.
    unfold model_from_obj.
    destruct (get_extents (triangulate_obj obj)) as [bmin bmax]. simpl.
    match goal with |- context [if ?b then _ else _] => destruct b end;
      reflexivity. }
  split; [exact Hafter|]. split; [exact Hlen|]. split.
  - rewrite Hrun.
    destruct (List.length buffer =? vertex_count * 12 + polygon_count * 3)%nat
      eqn:E; simpl.
    + apply Nat.eqb_eq in E. repeat split; auto.
    + apply Nat.eqb_neq in E. split; [reflexivity|exact E].
  - intros Hall Hex. rewrite Hrun.
    destruct (list_sum_triangles Hall) as [_ Hne]. specialize (Hne Hex).
    destruct (List.length buffer =? vertex_count * 12 + polygon_count * 3)%nat
      eqn:E; [|reflexivity].
    apply Nat.eqb_eq in E. unfold polygon_count in *. lia.
Qed.

(** *** Model occluders: the 8-bit indices *)

Lemma byte_of_nat_small (n : nat) :
  (n <= 255)%nat -> Byte.to_nat (byte_of_nat n) = n.
Proof.
  intros Hn. unfold byte_of_nat. rewrite Nat.mod_small by lia.
  destruct (Byte.of_nat n) as [b|] eqn:E.
  - now apply Byte.to_of_nat.
  - apply Byte.of_nat_None_iff in E. lia.
Qed.

Lemma uint8_exact (l : list nat) :
  Forall (fun i => (i <= 255)%nat) l -> map Byte.to_nat (map uint8 l) = l.
Proof.
  induction 1 as [|i l Hi _ IH]; simpl; [reflexivity|].
  unfold uint8 at 1. now rewrite byte_of_nat_small, IH.
Qed.

Lemma Forall_concat {A : Type} (P : A -> Prop) (ls : list (list A)) :
  Forall (Forall P) ls -> Forall P (List.concat ls).
Proof.
  induction 1 as [|l ls Hl _ IH]; simpl; [constructor|].
  apply Forall_app. now split.
Qed.

(** C10.  The loop skips a model occluder only when it has more than 256
    vertices, so one with exactly 256 is encoded: a model occluder that
    passes the test is handed to [model_from_obj].  For an object that
    passes the test, whose triangulation keeps its number of vertices and
    yields polygons that index existing vertices, every polygon-vertex
    index is at most 255, and the index bytes of the packed buffer read
    back as the indices themselves: nothing wraps modulo 256. *)
Theorem index_bytes_do_not_wrap (obj : Object F) :
  let mesh := data (triangulate_obj obj) in
  let indices := List.concat (polygons mesh) in
  too_many_vertices obj = false ->
  List.length (vertices mesh) = List.length (vertices (data obj)) ->
  Forall (Forall (fun i => (i < List.length (vertices mesh))%nat))
    (polygons mesh) ->
  (List.length (vertices (data obj)) <= 256)%nat
  /\ Forall (fun i => (i <= 255)%nat) indices
  /\ map Byte.to_nat (map uint8 indices) = indices
  /\ occlusion_model_obj_get_data_buffer (triangulate_obj obj) =
      flat_map vertex_tobytes
        (map (matmul (matrix_world obj)) (vertices mesh))
      ++ map uint8 indices
  /\ (sollum_type obj = YMAP_MODEL_OCCLUDER ->
      forall st,
      model_occluders_loop st [obj] =
        match model_from_obj obj with
        | (obj', Returned model) => (append_model st model, [obj'], None)
        | (obj', Raised e) => (st, [obj'], Some e)
        end).
Proof.
  intros mesh indices Hcheck Hkeep Hwf.
  assert (Hcount : (List.length (vertices (data obj)) <= 256)%nat).
  { unfold too_many_vertices in Hcheck. apply Nat.ltb_ge in Hcheck. lia. }
  assert (Hsmall : Forall (fun i => (i <= 255)%nat) indices).
  { apply Forall_concat. eapply Forall_impl; [|exact Hwf].
    intros p Hp. eapply Forall_impl; [|exact Hp].
    intros i Hi. simpl in Hi. lia. }
  repeat split.
  - exact Hcount.
  - exact Hsmall.
  - now apply uint8_exact.
  - intros Hrole st. unfold too_many_vertices in Hcheck. simpl.
    rewrite Hrole, sollum_type_eqb_refl, Hcheck.
    now destruct (model_from_obj obj) as [obj' [model|e]].
Qed.

(** The vertex-count test is strict: 256 vertices pass, 257 do not. *)
Lemma too_many_vertices_spec (obj : Object F) :
  too_many_vertices obj = true
  <-> (256 < List.length (vertices (data obj)))%nat.
Proof. unfold too_many_vertices. apply Nat.ltb_lt. Qed.

(** *** Entities *)

Lemma entity_from_obj_rotation (game : SollumzGame) (obj : Object F) :
  Entity.rotation (snd (entity_from_obj game obj)) =
    if String.eqb Entity_type "CMloInstanceDef"
    then to_quaternion (rotation_euler obj)
    else invert (to_quaternion (rotation_euler obj)).
Proof.
  unfold entity_from_obj. simpl.
  now destruct (String.eqb Entity_type "CMloInstanceDef").
Qed.

(** C2, as the code has it.  The test that guards the inversion reads the
    [type] of the record [entity_from_obj] has just constructed, which
    nothing sets from the object: the record keeps the type it was
    constructed with, and its rotation is the inverse of the Euler-derived
    quaternion for every object when that type is not
    ["CMloInstanceDef"], the quaternion itself for every object when it
    is.  No attribute of the object selects the branch. *)
Theorem entity_rotation_ignores_placement_kind (game : SollumzGame)
  (obj : Object F) :
  let entity := snd (entity_from_obj game obj) in
  let q := to_quaternion (rotation_euler obj) in
  Entity.type entity = Entity_type
  /\ Entity.rotation entity =
      if String.eqb Entity_type "CMloInstanceDef" then q else invert q.
Proof. split; [reflexivity|apply entity_from_obj_rotation]. Qed.

(** *** Box occluders *)

Lemma In_box_records (child : Object F) (b : BoxOccluder.t) :
  In b (box_records child) <->
  exists g, In g (children child)
    /\ tilted (rotation_euler g) = false
    /\ sollum_type g = YMAP_BOX_OCCLUDER
    /\ b = box_from_obj g.
Proof.
  unfold box_records. rewrite in_flat_map. split.
  - intros [g [Hg Hb]]. exists g. unfold box_record_of in Hb.
    destruct (tilted (rotation_euler g)); [contradiction|].
    destruct (sollum_type_eqb (sollum_type g) YMAP_BOX_OCCLUDER) eqn:E;
      [|contradiction].
    apply sollum_type_eqb_eq in E. destruct Hb as [<-|[]]. auto.
  - intros [g [Hg [Ht [Hr ->]]]]. exists g. split; [exact Hg|].
    unfold box_record_of. rewrite Ht, Hr, sollum_type_eqb_refl. now left.
Qed.

(** C6, as the code has it.  The center is [round(value*4)] of the center
    of the object's world-space extents; the three dimensions are
    [round(value*4)] of the object's own [dimensions]; the orientation
    pair is [round(dir.x*32767), round(dir.y*32767)] where [dir] is the
    vector (1,0,0) turned by the object's whole Euler rotation (rx, ry,
    rz) and then scaled by 0.5.  The boxes of the record are exactly
    these encodings of the group's children that are box occluders with
    rx and ry within the tolerance. *)
Theorem box_from_obj_encoding (obj : Object F) :
  let extents := get_extents obj in
  let center := get_bound_center_from_bounds (fst extents) (snd extents) in
  let unit_x := Vector.mk (float_of_Z 1) (float_of_Z 0) (float_of_Z 0) in
  let dir := vec_scale (rotate unit_x (rotation_euler obj))
               (float_of_Q (1 # 2)) in
  let quarter v := py_round (fmul v (float_of_Z 4)) in
  let fixed16 v := py_round (fmul v (float_of_Z 32767)) in
  box_from_obj obj =
    BoxOccluder.mk
      (quarter (Vector.x center)) (quarter (Vector.y center))
      (quarter (Vector.z center))
      (quarter (Vector.x (dimensions obj)))
      (quarter (Vector.y (dimensions obj)))
      (quarter (Vector.z (dimensions obj)))
      (fixed16 (Vector.x dir)) (fixed16 (Vector.y dir))
  /\ (forall child b,
        In b (box_records child) <->
        exists g, In g (children child)
          /\ tilted (rotation_euler g) = false
          /\ sollum_type g = YMAP_BOX_OCCLUDER
          /\ b = box_from_obj g).
Proof.
  split.
  - unfold box_from_obj. now destruct (get_extents obj).
  - apply In_box_records.
Qed.

End YmapFacts.

(** ** Runs on the sample scenes, in real arithmetic *)

Section SampleRuns.
  Import Ymap YmapSample.
  Local Open Scope R_scope.

Lemma round_half_even_near (r : R) (n : Z) :
  IZR n - 1 / 2 < r < IZR n + 1 / 2 -> round_half_even r = n.
Proof.
  intros [Hlo Hhi]. unfold round_half_even.
  destruct (Rlt_dec r (IZR n)) as [Hbelow|Habove].
  - assert (Hpart : Int_part r = (n - 1)%Z).
    { symmetry. apply Int_part_spec. rewrite minus_IZR. lra. }
    rewrite Hpart, minus_IZR.
    destruct (Rlt_dec (r - (IZR n - 1)) (1 / 2)); [lra|].
    destruct (Rlt_dec (1 / 2) (r - (IZR n - 1))); [lia|lra].
  - assert (Hpart : Int_part r = n).
    { symmetry. apply Int_part_spec. lra. }
    rewrite Hpart.
    destruct (Rlt_dec (r - IZR n) (1 / 2)); [reflexivity|lra].
Qed.

Lemma round_half_even_tie (n : Z) :
  round_half_even (IZR n + 1 / 2) = if Z.even n then n else (n + 1)%Z.
Proof.
  unfold round_half_even.
  assert (Hpart : Int_part (IZR n + 1 / 2) = n).
  { symmetry. apply Int_part_spec. lra. }
  rewrite Hpart.
  destruct (Rlt_dec (IZR n + 1 / 2 - IZR n) (1 / 2)); [lra|].
  destruct (Rlt_dec (1 / 2) (IZR n + 1 / 2 - IZR n)); [lra|reflexivity].
Qed.

Lemma cos_hundredth : 1 - 1 / 20000 < cos (1 / 100) < 1.
Proof.
  replace (1 / 100) with (2 * (1 / 200)) by lra. rewrite cos_2a_sin.
  assert (Hpos : 0 < sin (1 / 200)).
  { apply sin_gt_0; [lra|]. pose proof PI2_1. lra. }
  assert (Hlt : sin (1 / 200) < 1 / 200) by (apply sin_lt_x; lra).
  split; nra.
Qed.

Lemma tolerance_value : Q2R (1 # 100) = 1 / 100.
Proof. unfold Q2R. simpl. lra. Qed.

Lemma half_value : Q2R (1 # 2) = 1 / 2.
Proof. unfold Q2R. simpl. lra. Qed.

Lemma tilted_within (e : Euler.t R) :
  Rabs (Euler.x e) <= 1 / 100 -> Rabs (Euler.y e) <= 1 / 100 ->
  tilted e = false.
Proof.
  intros Hx Hy. unfold tilted. simpl. rewrite tolerance_value.
  destruct (Rgt_dec (Rabs (Euler.x e)) (1 / 100)); [lra|].
  destruct (Rgt_dec (Rabs (Euler.y e)) (1 / 100)); [lra|reflexivity].
Qed.

Lemma tilted_level : tilted level = false.
Proof.
  apply tilted_within; simpl; rewrite Rabs_R0; lra.
Qed.

(** The X component of the direction [box_from_obj] encodes, in exact
    arithmetic: the whole rotation acts on the unit vector, and the tilt
    about Y shortens its horizontal part. *)
Lemma box_sin_z_real (obj : Object R) :
  BoxOccluder.sin_z (box_from_obj obj) =
    round_half_even
      (cos (Euler.y (rotation_euler obj)) * cos (Euler.z (rotation_euler obj))
       * (32767 / 2)).
Proof.
  unfold box_from_obj. destruct (get_extents obj) as [bbmin bbmax].
  cbn [BoxOccluder.sin_z py_round real_float fmul float_of_Z float_of_Q
       vec_scale Vector.x Vector.y Vector.z rotate real_mathutils
       real_rotate].
  rewrite half_value. f_equal. field.
Qed.

(** C6, as the spec words it, fails on [slab]: its rotation (0, 1/100, 0)
    is within the tolerance, [box_from_obj] encodes 16383 for the X
    component of its direction, and the vector (0.5, 0, 0) turned by rz
    alone encodes 16384. *)
Lemma slab_orientation_is_not_rz_alone :
  tilted (rotation_euler slab) = false
  /\ BoxOccluder.sin_z (box_from_obj slab) = 16383%Z
  /\ py_round
       (fmul
          (Vector.x
             (rotate
                (Vector.mk (float_of_Q (1 # 2)) (float_of_Z 0) (float_of_Z 0))
                (Euler.mk (float_of_Z 0) (float_of_Z 0)
                   (Euler.z (rotation_euler slab)))))
          (float_of_Z 32767)) = 16384%Z.
Proof.
  split; [|split].
  - apply tilted_within; simpl.
    + rewrite Rabs_R0. lra.
    + rewrite Rabs_pos_eq; lra.
  - rewrite box_sin_z_real. simpl. rewrite cos_0.
    apply round_half_even_near. pose proof cos_hundredth. lra.
  - cbn [py_round real_float fmul float_of_Z float_of_Q Vector.x Vector.y
         Vector.z rotate real_mathutils real_rotate Euler.x Euler.y Euler.z
         rotation_euler slab with_rotation].
    rewrite half_value, cos_0, sin_0.
    replace (1 * 1 * (1 / 2) + (0 * (0 * 1) - 1 * 0) * 0
             + (0 * (1 * 1) + 0 * 0) * 0) with (1 / 2) by lra.
    replace (1 / 2 * 32767) with (IZR 16383 + 1 / 2) by lra.
    rewrite round_half_even_tie. reflexivity.
Qed.

(** With no tilt about Y at all, the spec's formula and the code agree,
    whatever the rotation about X. *)
Lemma box_direction_without_y_tilt (rx rz : R) :
  vec_scale (rotate (Vector.mk 1 0 0) (Euler.mk rx 0 rz)) (1 / 2) =
    rotate (Vector.mk (1 / 2) 0 0) (Euler.mk 0 0 rz).
Proof.
  cbv [vec_scale rotate real_mathutils real_rotate fmul real_float
       Vector.x Vector.y Vector.z Euler.x Euler.y Euler.z].
  rewrite cos_0, sin_0. f_equal; field.
Qed.

(** C2 on [gate], turned by pi about Z: the record's rotation is the
    inverse (0, 0, 0, -1) of the Euler-derived quaternion (0, 0, 0, 1),
    and nothing on the object could have asked for the other. *)
Lemma gate_rotation_is_inverted :
  to_quaternion (rotation_euler gate) = Quaternion.mk 0 0 0 1
  /\ Entity.rotation (snd (entity_from_obj RDR gate))
     = Quaternion.mk 0 0 0 (-1)
  /\ Entity.type (snd (entity_from_obj RDR gate)) = "CEntityDef"%string.
Proof.
  assert (Hq : to_quaternion (rotation_euler gate) = Quaternion.mk 0 0 0 1).
  { cbv [to_quaternion real_mathutils real_to_quaternion rotation_euler gate
         with_rotation Euler.x Euler.y Euler.z].
    replace (0 * / 2) with 0 by lra. replace (PI * / 2) with (PI / 2) by lra.
    rewrite cos_0, sin_0, cos_PI2, sin_PI2. f_equal; ring. }
  split; [exact Hq|]. split; [|reflexivity].
  rewrite entity_from_obj_rotation, Hq.
  change (String.eqb Entity_type "CMloInstanceDef") with false.
  cbv [invert real_mathutils real_invert Quaternion.w Quaternion.x
       Quaternion.y Quaternion.z].
  f_equal; field.
Qed.

(** C3 on [depot], whose block flags are "2": the record's are "0", those
    of a fresh record. *)
Lemma depot_block_flags_are_lost :
  Block.flags (YmapProperties.block (ymap_properties depot)) = "2"%string
  /\ match outcome (ymap_from_object export_everything depot) with
     | Returned ymap =>
         Block.flags (CMapData.block ymap) = "0"%string
         /\ Block.versiflagson (CMapData.block ymap) = Some "2"%string
     | Raised _ => False
     end.
Proof. split; [reflexivity|]. split; reflexivity. Qed.

(** C4, as the spec words it, fails on [quarry]: its box occluder group
    is empty, the record holds no occluder of either kind, and the
    record's occlusion flag is set. *)
Lemma quarry_has_occl_without_occluders :
  ContentFlags.has_occl (YmapProperties.content_flags (ymap_properties quarry))
    = false
  /\ match outcome (ymap_from_object export_everything quarry) with
     | Returned ymap =>
         CMapData.box_occluders ymap = []
         /\ CMapData.occlude_models ymap = []
         /\ ContentFlags.has_occl (CMapData.content_flags ymap) = true
     | Raised _ => False
     end.
Proof. split; [reflexivity|]. repeat split; reflexivity. Qed.

(** The same with a group whose only child is skipped by validation. *)
Lemma skipped_child_still_marks_has_occl :
  export_child export_everything (initial_state quarry) box_group
    = (mkState (set_has_occl (ymap_properties quarry)) [] [] [] []
         [LogWarning
            "Object stray will be skipped because it is not a Box Occluder type."],
       box_group, None).
Proof.
  rewrite export_child_cases.
  change (box_occluders_body (initial_state quarry) box_group
          = (mkState (set_has_occl (ymap_properties quarry)) [] [] [] []
               [LogWarning (wrong_type_message stray YMAP_BOX_OCCLUDER)],
             box_group, None)).
  unfold box_occluders_body. rewrite fold_box_occluder_step.
  unfold box_group, object. cbn [children flat_map].
  unfold box_record_of, box_diagnostic_of.
  change (rotation_euler stray) with level. rewrite tilted_level.
  reflexivity.
Qed.


(** C1 on [cell]: with entities disabled, the pass over the entity group
    changes nothing; with entities enabled, it is the loop over the
    group's children. *)
Lemma excluded_entity_group_is_skipped :
  export_child export_no_entities (initial_state cell) entity_group
    = (initial_state cell, entity_group, None)
  /\ export_child export_everything (initial_state cell) entity_group
     = entities_body RDR (initial_state cell) entity_group.
Proof.
  split.
  - exact (proj1 (settings_gate_categories export_no_entities cell)
             (initial_state cell) entity_group Entities eq_refl).
  - exact (proj1 (settings_gate_categories export_everything cell)
             (initial_state cell) entity_group Entities eq_refl).
Defined.

(** C5 on [wall], a quad: triangulated into two triangles it yields a
    record of 4*12 + 2*3 bytes; with an operator that leaves the quad in
    place, the assertion fails. *)
Lemma wall_buffer_sizes :
  (exists model,
     snd (model_from_obj wall) = Returned model
     /\ List.length (OccludeModel.verts model) = 54%nat)
  /\ snd (model_from_obj (helpers := careless_helpers) wall)
     = Raised AssertionError.
Proof.
  split.
  - destruct (model_from_obj_buffer_size wall) as [_ [_ [Hrun _]]].
    assert (Hret : exists model, snd (model_from_obj wall) = Returned model)
      by (eexists; reflexivity).
    destruct Hret as [model Hret]. rewrite Hret in Hrun.
    exists model. split; [exact Hret|]. exact (proj1 (proj2 Hrun)).
  - apply (proj2 (proj2 (proj2
             (model_from_obj_buffer_size (helpers := careless_helpers) wall)))).
    + repeat constructor.
    + left. simpl. discriminate.
Defined.

(** C10 on [wall]: four vertices pass the test, and the index bytes of
    its two triangles read back as the indices. *)
Lemma wall_indices_read_back :
  map Byte.to_nat
    (map uint8 (List.concat (polygons (data (triangulate_obj wall)))))
  = [0; 1; 2; 0; 2; 3]%nat.
Proof.
  refine (proj1 (proj2 (proj2
            (index_bytes_do_not_wrap wall eq_refl eq_refl _)))).
  simpl. repeat (constructor; try lia).
Defined.

(** The vertex limit at its edge: 256 vertices are encoded, 257 are
    skipped with a warning. *)
Example vertex_limit_is_strict :
  too_many_vertices (cloud 256) = false
  /\ encodes_model (cloud 256) = true
  /\ too_many_vertices (cloud 257) = true
  /\ model_diagnostic_of (cloud 257) =
     [LogWarning
        "Object cloud has too many vertices and will be skipped. It can not have more than 256 vertices."].
Proof. repeat split; reflexivity. Qed.

End SampleRuns.

(** * Further properties of the exporters *)

(** ** Sorting by key, whatever the order of the input *)

Section SortOrderFacts.
  Context {A : Type} (key : A -> Z).

Lemma Permutation_filter_same (f : A -> bool) (l1 l2 : list A) :
  Permutation l1 l2 -> Permutation (filter f l1) (filter f l2).
Proof.
  induction 1 as [|x l1 l2 _ IH|x y l|l1 l2 l3 _ IH1 _ IH2]; simpl.
  - constructor.
  - destruct (f x); [now constructor|exact IH].
  - destruct (f x), (f y); try apply Permutation_refl. apply perm_swap.
  - eapply perm_trans; eauto.
Qed.

Lemma with_key_at_most_one (k : Z) (l : list A) :
  NoDup (map key l) -> (List.length (with_key key k l) <= 1)%nat.
Proof.
  induction l as [|x l IH]; simpl; intros Hnd; [lia|].
  inversion Hnd as [|? ? Hnot Hrest]; subst. specialize (IH Hrest).
  destruct (key x =? k) eqn:E; [|exact IH]. apply Z.eqb_eq in E. simpl.
  destruct (with_key key k l) as [|y rest] eqn:Hw; [simpl; lia|].
  exfalso. apply Hnot.
  assert (Hy : In y (with_key key k l)) by (rewrite Hw; now left).
  apply with_key_in in Hy. destruct Hy as [Hin Hk].
  rewrite E, <- Hk. now apply in_map.
Qed.

Lemma short_permutation_eq (l1 l2 : list A) :
  Permutation l1 l2 -> (List.length l1 <= 1)%nat -> l1 = l2.
Proof.
  intros Hp Hlen. destruct l1 as [|x [|y l1]]; simpl in Hlen; try lia.
  - apply Permutation_nil in Hp. now subst.
  - apply Permutation_length_1_inv in Hp. now subst.
Qed.

(** When no two records share a key, the sorted list depends on which
    records come in, not on the order they come in. *)
Lemma sort_by_key_order_free (l1 l2 : list A) :
  Permutation l1 l2 -> NoDup (map key l1) ->
  sort_by_key key l1 = sort_by_key key l2.
Proof.
  intros Hp Hnd. apply stable_sorted_unique with (key := key).
  - apply sort_by_key_sorted.
  - apply sort_by_key_sorted.
  - intros k. rewrite !sort_by_key_stable. apply short_permutation_eq.
    + now apply Permutation_filter_same.
    + now apply with_key_at_most_one.
Qed.

End SortOrderFacts.

(** ** More on the drawable dictionary exporter *)

Section YddMore.
  Import Ydd.
  Context {Skeleton Geometry : Type} {collab : Collaborators Skeleton Geometry}.

Lemma find_first_split {A : Type} (f : A -> bool) (l : list A) :
  match find f l with
  | Some a =>
      exists before after,
        l = before ++ a :: after /\ f a = true
        /\ Forall (fun c => f c = false) before
  | None => Forall (fun c => f c = false) l
  end.
Proof.
  induction l as [|x l IH]; simpl; [constructor|].
  destruct (f x) eqn:E.
  - exists [], l. repeat split; [exact E|constructor].
  - destruct (find f l) as [a|].
    + destruct IH as [before [after [-> [Ha Hb]]]].
      exists (x :: before), after. repeat split; [exact Ha|now constructor].
    + now constructor.
Qed.

(** X1.  [find_ydd_armature] returns the first child whose type is
    ["ARMATURE"]: every child before it is of another type; and it
    returns [None] exactly when no child is an armature (the loop falls
    through without a [return]). *)
Theorem find_ydd_armature_is_first (ydd_obj : Object) :
  match find_ydd_armature ydd_obj with
  | Some a =>
      exists before after,
        children ydd_obj = before ++ a :: after
        /\ type a = "ARMATURE"%string
        /\ Forall (fun c => type c <> "ARMATURE"%string) before
  | None => Forall (fun c => type c <> "ARMATURE"%string) (children ydd_obj)
  end.
Proof.
  unfold find_ydd_armature.
  pose proof (find_first_split is_armature (children ydd_obj)) as H.
  assert (Hno : forall l, Forall (fun c => is_armature c = false) l ->
                Forall (fun c => type c <> "ARMATURE"%string) l).
  { intros l Hl. eapply Forall_impl; [|exact Hl]. intros c Hc.
    unfold is_armature in Hc. now apply String.eqb_neq. }
  destruct (find is_armature (children ydd_obj)) as [a|].
  - destruct H as [before [after [Heq [Ha Hb]]]].
    exists before, after. repeat split; auto.
    unfold is_armature in Ha. now apply String.eqb_eq.
  - now apply Hno.
Qed.

Lemma before_first_dot_suffix (s : string) :
  before_first_dot (s ++ ".#dd")%string = before_first_dot s.
Proof.
  induction s as [|c s IH]; simpl; [reflexivity|].
  destruct (Ascii.eqb c "."); [reflexivity|now rewrite IH].
Qed.

(** X2.  The [".#dd"] suffix the loop appends never changes the GTA sort
    key: the key of an exported record is the name hash of the encoder's
    name up to its first period.  Records whose encoder names agree up to
    the first period (["hat"], ["hat.001"]) therefore tie. *)
Theorem get_hash_ignores_suffix (exclude_skeleton : bool)
  (ydd_armature : option Object) (child : Object) :
  get_hash (snd (export_child exclude_skeleton ydd_armature child)) =
    name_to_hash
      (before_first_dot
         (xml_name
            (create_drawable_xml child
               (armature_obj_for ydd_armature child)))).
Proof.
  unfold get_hash, export_child. simpl.
  destruct (exclude_skeleton || negb (is_armature child)); simpl;
    now rewrite before_first_dot_suffix.
Qed.

(** X3.  The dictionary holds exactly one record per child of the
    drawable role, and nothing else: its records are, up to the order the
    sort puts them in, the list that has for each such child, counted as
    often as it occurs among the children, the encoder's result for that
    child with [".#dd"] appended to the name, hash and geometry untouched,
    and the skeleton dropped when exclusion was asked for or the child is
    not an armature. *)
Theorem create_ydd_xml_records (ydd_obj : Object) (exclude_skeleton : bool) :
  Permutation
    (map (fun child =>
            let raw := create_drawable_xml child
                         (armature_obj_for (reference_armature ydd_obj)
                            child) in
            mkDrawable (xml_name raw ++ ".#dd")%string (xml_hash raw)
              (if exclude_skeleton || negb (is_armature child)
               then None else xml_skeleton raw)
              (xml_geometry raw))
       (filter (fun child => sollum_type_eqb (sollum_type child) DRAWABLE)
          (children ydd_obj)))
    (ydd_items (create_ydd_xml ydd_obj exclude_skeleton)).
Proof.
  assert (Hperm : Permutation (collected ydd_obj exclude_skeleton)
                    (ydd_items (create_ydd_xml ydd_obj exclude_skeleton))).
  { unfold create_ydd_xml.
    destruct (sollum_game_type ydd_obj); apply sort_by_key_perm. }
  etransitivity; [|exact Hperm].
  unfold collected, collect. rewrite map_map.
  match goal with
  | |- Permutation ?l ?r => assert (Heq : l = r); [|rewrite Heq; reflexivity]
  end.
  apply map_ext. intros child. unfold export_child. simpl.
  now destruct (exclude_skeleton || negb (is_armature child)).
Qed.

(** The sort key [create_ydd_xml] uses for a game. *)
Lemma create_ydd_xml_as_sort (ydd_obj : Object) (exclude_skeleton : bool) :
  ydd_items (create_ydd_xml ydd_obj exclude_skeleton) =
    sort_by_key
      (match sollum_game_type ydd_obj with
       | GTA => get_hash
       | RDR => rdr_get_hash_literal
       end)
      (collected ydd_obj exclude_skeleton).
Proof. unfold create_ydd_xml. now destruct (sollum_game_type ydd_obj). Qed.

(** X4.  When the hash keys of the exported records are pairwise
    distinct, the dictionary does not depend on the order of the
    container's children: two containers of the same game with the same
    reference armature, whose children are the same up to order, export
    to the same dictionary. *)
Theorem create_ydd_xml_order_free (a b : Object) (exclude_skeleton : bool) :
  sollum_game_type a = sollum_game_type b ->
  reference_armature a = reference_armature b ->
  Permutation (children a) (children b) ->
  NoDup (map (match sollum_game_type a with
              | GTA => get_hash
              | RDR => rdr_get_hash_literal
              end) (collected a exclude_skeleton)) ->
  create_ydd_xml a exclude_skeleton = create_ydd_xml b exclude_skeleton.
Proof.
  intros Hgame Harm Hperm Hnd.
  assert (Hcol : Permutation (collected a exclude_skeleton)
                   (collected b exclude_skeleton)).
  { unfold collected, collect. rewrite <- Harm.
    do 2 apply Permutation_map. now apply Permutation_filter_same. }
  unfold create_ydd_xml. rewrite <- Hgame.
  destruct (sollum_game_type a); f_equal;
    now apply sort_by_key_order_free.
Qed.

End YddMore.

(** X4 on the sample drawables: parented in two orders, one dictionary. *)
Lemma letters_order_free :
  Ydd.create_ydd_xml (collab := YddSample.sample_collaborators)
    (YddSample.letters GTA) false
  = Ydd.create_ydd_xml (collab := YddSample.sample_collaborators)
      (YddSample.letters_shuffled GTA) false.
Proof.
  apply (create_ydd_xml_order_free (collab := YddSample.sample_collaborators)
           (YddSample.letters GTA) (YddSample.letters_shuffled GTA) false).
  - reflexivity.
  - reflexivity.
  - exact (Permutation_rev (Ydd.children (YddSample.letters GTA))).
  - vm_compute. repeat constructor; simpl; intuition discriminate.
Defined.

(** ** More on the map data exporter *)

Section YmapMore.
  Import Ymap.
  Context {F : Type} {float_ops : PyFloat F} {numpy : NumPy F}
    {mathutils : MathUtils F} {helpers : Helpers F}.

(** *** The outcome of [model_from_obj] *)

Lemma model_from_obj_outcome (obj : Object F) :
  let after := triangulate_obj obj in
  snd (model_from_obj obj) =
    if (List.length (occlusion_model_obj_get_data_buffer after)
        =? List.length (vertices (data after)) * 12
           + List.length (polygons (data after)) * 3)%nat
    then Returned
           (OccludeModel.mk (fst (get_extents after)) (snd (get_extents after))
              (occlusion_model_obj_get_data_buffer after)
              (List.length (vertices (data after)) * 12)
              (Z.lor (Z.of_nat (List.length (polygons (data after)))) 32768)
              (List.length (occlusion_model_obj_get_data_buffer after))
              (model_occl_flags after))
    else Raised AssertionError.
Proof.
  unfold model_from_obj.
  destruct (get_extents (triangulate_obj obj)) as [bmin bmax]. simpl.
  match goal with |- context [if ?b then _ else _] => destruct b end;
    reflexivity.
Qed.

(** *** Every visited object is accounted for *)

Lemma model_occluders_loop_encodes (objs : list (Object F)) :
  forall st st' objs',
  model_occluders_loop st objs = (st', objs', None) ->
  Forall (fun g =>
      encodes_model g = true ->
      exists model, snd (model_from_obj g) = Returned model) objs.
Proof.
  induction objs as [|g objs IH]; intros st st' objs' Hrun; simpl in Hrun;
    [constructor|].
  unfold encodes_model, too_many_vertices.
  destruct (sollum_type_eqb (sollum_type g) YMAP_MODEL_OCCLUDER) eqn:Hrole.
  - destruct (256 <? List.length (vertices (data g)))%nat eqn:Hmany.
    + destruct (model_occluders_loop _ objs) as [[st1 r1] e1] eqn:Hrest.
      injection Hrun as <- <- ->. constructor; [|eapply IH; eauto].
      rewrite Hrole, Hmany. discriminate.
    + destruct (model_from_obj g) as [g1 [model|e1]] eqn:Hg; [|discriminate].
      destruct (model_occluders_loop _ objs) as [[st1 r1] e2] eqn:Hrest.
      injection Hrun as <- <- ->. constructor; [|eapply IH; eauto].
      intros _. exists model. simpl. now rewrite ?Hg.
  - destruct (model_occluders_loop _ objs) as [[st1 r1] e1] eqn:Hrest.
    injection Hrun as <- <- ->. constructor; [|eapply IH; eauto].
    rewrite Hrole. discriminate.
Qed.

Lemma export_child_encodes (env : Environment) (st st' : State)
  (child child' : Object F) :
  export_child env st child = (st', child', None) ->
  visits (export_settings env) ModelOccluders child = true ->
  models_encode child.
Proof.
  rewrite export_child_cases. unfold visits, enabled, models_encode.
  destruct (export_settings env) as [xe xb xm xc]. simpl.
  destruct (sollum_type child) eqn:E; decide_roles;
    rewrite ?andb_false_r; try discriminate.
  destruct xm; [discriminate|]. unfold model_occluders_body.
  destruct (model_occluders_loop (mark_has_occl st) (children child))
    as [[st1 cs1] e1] eqn:Hloop.
  intros H _. injection H as <- <- ->.
  eapply model_occluders_loop_encodes; eauto.
Qed.

Lemma export_children_encode (env : Environment) (cs : list (Object F)) :
  forall st st' cs',
  export_children env st cs = (st', cs', None) ->
  Forall (fun child =>
      visits (export_settings env) ModelOccluders child = true ->
      models_encode child) cs.
Proof.
  induction cs as [|child cs IH]; intros st st' cs' Hrun; simpl in Hrun;
    [constructor|].
  destruct (export_child env st child) as [[st1 child1] [e1|]] eqn:Hchild;
    [discriminate|].
  destruct (export_children env st1 cs) as [[st2 rest] e2] eqn:Hrest.
  injection Hrun as <- <- ->.
  constructor; [eapply export_child_encodes; eauto|eapply IH; eauto].
Qed.

Lemma flat_map_flat_map {A B C : Type} (f : A -> list B) (g : B -> list C)
  (l : list A) :
  flat_map g (flat_map f l) = flat_map (fun x => flat_map g (f x)) l.
Proof.
  induction l as [|x l IH]; simpl; [reflexivity|].
  now rewrite flat_map_app, IH.
Qed.

Lemma flat_map_map_hit {A B : Type} (wrap : A -> B) (pick : B -> list A)
  (l : list A) :
  (forall x, pick (wrap x) = [x]) -> flat_map pick (map wrap l) = l.
Proof.
  intros H. induction l as [|x l IH]; simpl; [reflexivity|].
  now rewrite H, IH.
Qed.

Lemma flat_map_map_miss {A B C : Type} (wrap : A -> B) (pick : B -> list C)
  (l : list A) :
  (forall x, pick (wrap x) = []) -> flat_map pick (map wrap l) = [].
Proof.
  intros H. induction l as [|x l IH]; simpl; [reflexivity|].
  now rewrite H, IH.
Qed.

Lemma flat_map_nil {A B : Type} (l : list A) :
  flat_map (fun _ : A => @nil B) l = [].
Proof. induction l; simpl; auto. Qed.

Lemma flat_map_singleton {A B : Type} (f : A -> B) (l : list A) :
  flat_map (fun x => [f x]) l = map f l.
Proof. induction l as [|x l IH]; simpl; [reflexivity|now rewrite IH]. Qed.

(** Projecting the outputs of a record-or-diagnostic loop. *)
Lemma outputs_projected {A B : Type} (wrap : A -> @Output F)
  (pick : @Output F -> list B) (record : Object F -> list A)
  (report : Object F -> list LogEntry) (expected : Object F -> list B)
  (l : list (Object F)) :
  (forall g,
     flat_map pick (map wrap (record g))
       ++ flat_map pick (map DiagnosticOutput (report g)) = expected g) ->
  flat_map pick
    (flat_map (fun g =>
         map wrap (record g) ++ map DiagnosticOutput (report g)) l)
  = flat_map expected l.
Proof.
  intros H. rewrite flat_map_flat_map. apply flat_map_ext. intros g.
  now rewrite flat_map_app, H.
Qed.

Ltac project_outputs :=
  repeat match goal with
  | |- context [flat_map ?pick (map ?wrap ?l)] =>
      first
        [ rewrite (flat_map_map_hit wrap pick l) by reflexivity
        | rewrite (flat_map_map_miss wrap pick l) by reflexivity ]
  end;
  rewrite ?app_nil_r; try reflexivity.

(** The outputs of one child, sequence by sequence. *)
Lemma child_outputs (s : ExportSettings) (game : SollumzGame)
  (child : Object F) :
  let outs :=
    when (visited s child)
      (flat_map (outputs_of game child) (children child)) in
  entities_of outs
    = when (visits s Entities child) (entity_records game child)
  /\ box_occluders_of outs
     = when (visits s BoxOccluders child) (box_records child)
  /\ occlude_models_of outs
     = when (visits s ModelOccluders child) (model_records child)
  /\ car_generators_of outs
     = when (visits s CarGenerators child) (cargen_records child)
  /\ diagnostics_of outs = child_diagnostics s child.
Proof.
  unfold entities_of, box_occluders_of, occlude_models_of, car_generators_of,
    diagnostics_of, child_diagnostics, visited, visits, enabled, outputs_of,
    entity_records, box_records, box_diagnostics, model_records,
    model_diagnostics, cargen_records, cargen_diagnostics.
  destruct s as [xe xb xm xc]. cbn [excluded group_type].
  cbn [ymap_exclude_entities ymap_box_occluders ymap_model_occluders
       ymap_car_generators].
  destruct (sollum_type child) eqn:E; decide_roles;
    rewrite ?andb_false_r, ?andb_true_r; cbn [orb when app flat_map];
    try (repeat split; reflexivity).
  - destruct xe; cbn [negb orb when app flat_map];
      [repeat split; reflexivity|].
    rewrite !flat_map_flat_map. cbn [flat_map app].
    rewrite !flat_map_nil, flat_map_singleton. repeat split; reflexivity.
  - destruct xb; cbn [negb orb when app flat_map];
      [repeat split; reflexivity|].
    repeat split; rewrite ?app_nil_r;
      (apply outputs_projected; intros g; project_outputs)
      || (erewrite outputs_projected;
          [apply flat_map_nil|intros g; project_outputs]).
  - destruct xm; cbn [negb orb when app flat_map];
      [repeat split; reflexivity|].
    repeat split; rewrite ?app_nil_r;
      (apply outputs_projected; intros g; project_outputs)
      || (erewrite outputs_projected;
          [apply flat_map_nil|intros g; project_outputs]).
  - destruct xc; cbn [negb orb when app flat_map];
      [repeat split; reflexivity|].
    repeat split; rewrite ?app_nil_r;
      (apply outputs_projected; intros g; project_outputs)
      || (erewrite outputs_projected;
          [apply flat_map_nil|intros g; project_outputs]).
Qed.

Lemma run_outputs_projected (s : ExportSettings) (game : SollumzGame)
  (cs : list (Object F)) :
  let outs := run_outputs s game cs in
  entities_of outs
    = flat_map (fun child =>
          when (visits s Entities child) (entity_records game child)) cs
  /\ box_occluders_of outs
     = flat_map (fun child =>
           when (visits s BoxOccluders child) (box_records child)) cs
  /\ occlude_models_of outs
     = flat_map (fun child =>
           when (visits s ModelOccluders child) (model_records child)) cs
  /\ car_generators_of outs
     = flat_map (fun child =>
           when (visits s CarGenerators child) (cargen_records child)) cs
  /\ diagnostics_of outs = flat_map (child_diagnostics s) cs.
Proof.
  unfold run_outputs.
  induction cs as [|child cs IH]; cbn [flat_map]; [repeat split|].
  destruct IH as [He [Hb [Hm [Hc Hd]]]].
  destruct (child_outputs s game child) as [He' [Hb' [Hm' [Hc' Hd']]]].
  unfold entities_of, box_occluders_of, occlude_models_of, car_generators_of,
    diagnostics_of in *.
  rewrite !flat_map_app, He, Hb, Hm, Hc, Hd, He', Hb', Hm', Hc', Hd'.
  repeat split.
Qed.

(** Each object of a visited group has exactly one output. *)
Lemma one_output_each (s : ExportSettings) (game : SollumzGame)
  (child : Object F) :
  (visits s ModelOccluders child = true -> models_encode child) ->
  visited s child = true ->
  Forall (fun g => exists output, outputs_of game child g = [output])
    (children child).
Proof.
  unfold visited, visits, enabled, models_encode, outputs_of.
  destruct s as [xe xb xm xc]. cbn [excluded group_type].
  cbn [ymap_exclude_entities ymap_box_occluders ymap_model_occluders
       ymap_car_generators].
  destruct (sollum_type child) eqn:E; decide_roles;
    rewrite ?andb_false_r, ?andb_true_r; cbn [orb]; try discriminate.
  - intros _ _. apply Forall_forall. intros g _. eexists. reflexivity.
  - intros _ _. apply Forall_forall. intros g _.
    unfold box_record_of, box_diagnostic_of.
    destruct (tilted (rotation_euler g));
      [|destruct (sollum_type_eqb (sollum_type g) YMAP_BOX_OCCLUDER)];
      eexists; reflexivity.
  - intros Henc Hon. rewrite ?orb_false_r in Hon.
    specialize (Henc Hon). eapply Forall_impl; [|exact Henc].
    intros g Hg. unfold model_record_of, model_diagnostic_of in *.
    unfold encodes_model in *.
    destruct (sollum_type_eqb (sollum_type g) YMAP_MODEL_OCCLUDER);
      cbn [andb] in *; [|eexists; reflexivity].
    destruct (too_many_vertices g); cbn [negb] in *; [eexists; reflexivity|].
    destruct (Hg eq_refl) as [model ->]. eexists. reflexivity.
  - intros _ _. apply Forall_forall. intros g _.
    unfold cargen_record_of, cargen_diagnostic_of.
    destruct (tilted (rotation_euler g));
      [|destruct (sollum_type_eqb (sollum_type g) YMAP_CAR_GENERATOR)];
      eexists; reflexivity.
Qed.

(** X7.  An export that returns neither drops nor duplicates an object.
    Every child of every group the export visits has exactly one output,
    a record or a diagnostic, which depends on that object alone.  The
    outputs of all those objects, in the order the loops meet them, are
    what the export produces: each of the four sequences of the record
    is the records of its kind among them, in that order, and the log is
    the diagnostics among them, in that order. *)
Theorem every_visited_object_is_accounted_for (env : Environment)
  (obj : Object F) :
  let s := export_settings env in
  let game := current_game env in
  let run := ymap_from_object env obj in
  match outcome run with
  | Returned ymap =>
      let outputs := run_outputs s game (children obj) in
      Forall (fun child =>
          visited s child = true ->
          Forall (fun g => exists output, outputs_of game child g = [output])
            (children child))
        (children obj)
      /\ CMapData.entities ymap = entities_of outputs
      /\ CMapData.box_occluders ymap = box_occluders_of outputs
      /\ CMapData.occlude_models ymap = occlude_models_of outputs
      /\ CMapData.car_generators ymap = car_generators_of outputs
      /\ diagnostics run = diagnostics_of outputs
  | Raised _ => True
  end.
Proof.
  cbv zeta. unfold ymap_from_object.
  destruct (export_children env (initial_state obj) (children obj))
    as [[st cs] [e|]] eqn:Hrun; simpl; [exact I|].
  pose proof (export_children_encode _ _ _ Hrun) as Henc.
  apply export_children_returns in Hrun. subst st. simpl.
  destruct (run_outputs_projected (export_settings env) (current_game env)
              (children obj)) as [He [Hb [Hm [Hc Hd]]]].
  rewrite He, Hb, Hm, Hc, Hd. split; [|repeat split].
  eapply Forall_impl; [|exact Henc]. intros child Hchild.
  now apply one_output_each.
Qed.

(** *** The scalar fields of the record *)

Lemma properties_frame_scalars (p p' : YmapProperties.t F) :
  properties_frame p p' ->
  YmapProperties.parent p' = YmapProperties.parent p
  /\ YmapProperties.flags p' = YmapProperties.flags p
  /\ ContentFlags.other_bits (YmapProperties.content_flags p')
     = ContentFlags.other_bits (YmapProperties.content_flags p).
Proof. intros [->| ->]; repeat split. Qed.

(** X8.  The record and the container agree after an export that
    returns: the record's name is the container's name without its
    number suffix, its parent and flags are the container's, its content
    flags are the container's as the loop left them (only the occlusion
    bit can differ from before the export), and its four extents are the
    ones the export wrote onto the container. *)
Theorem record_agrees_with_container (env : Environment) (obj : Object F) :
  let run := ymap_from_object env obj in
  let after := ymap_properties (scene run) in
  match outcome run with
  | Returned ymap =>
      CMapData.name ymap = remove_number_suffix (name obj)
      /\ CMapData.parent ymap = YmapProperties.parent (ymap_properties obj)
      /\ CMapData.parent ymap = YmapProperties.parent after
      /\ CMapData.flags ymap = YmapProperties.flags (ymap_properties obj)
      /\ CMapData.flags ymap = YmapProperties.flags after
      /\ CMapData.content_flags ymap = YmapProperties.content_flags after
      /\ ContentFlags.other_bits (CMapData.content_flags ymap)
         = ContentFlags.other_bits
             (YmapProperties.content_flags (ymap_properties obj))
      /\ CMapData.entities_extents_min ymap
         = YmapProperties.entities_extents_min after
      /\ CMapData.entities_extents_max ymap
         = YmapProperties.entities_extents_max after
      /\ CMapData.streaming_extents_min ymap
         = YmapProperties.streaming_extents_min after
      /\ CMapData.streaming_extents_max ymap
         = YmapProperties.streaming_extents_max after
  | Raised _ => True
  end.
Proof.
  unfold ymap_from_object.
  destruct (export_children env (initial_state obj) (children obj))
    as [[st cs] [e|]] eqn:Hrun; simpl; [exact I|].
  destruct (export_children_frame _ _ _ Hrun) as [_ Hp]. simpl in Hp.
  pose proof (properties_frame_scalars Hp) as [Hparent [Hflags Hbits]].
  repeat split; auto.
Qed.

(** *** Everything disabled *)

Lemma export_children_all_disabled (env : Environment) (st : State)
  (cs : list (Object F)) :
  ymap_exclude_entities (export_settings env) = true ->
  ymap_box_occluders (export_settings env) = true ->
  ymap_model_occluders (export_settings env) = true ->
  ymap_car_generators (export_settings env) = true ->
  export_children env st cs = (st, cs, None).
Proof.
  intros He Hb Hm Hc. induction cs as [|child cs IH]; simpl; [reflexivity|].
  rewrite export_child_cases. cbv zeta. rewrite He, Hb, Hm, Hc.
  destruct (sollum_type child); now rewrite IH.
Qed.

(** X9.  With all four categories disabled the export cannot fail and
    visits nothing: it returns a record with four empty sequences, logs
    nothing, leaves every child of the container and the container's
    content flags as they were, and only writes the extents. *)
Theorem export_with_everything_disabled (env : Environment)
  (obj : Object F) :
  ymap_exclude_entities (export_settings env) = true ->
  ymap_box_occluders (export_settings env) = true ->
  ymap_model_occluders (export_settings env) = true ->
  ymap_car_generators (export_settings env) = true ->
  let run := ymap_from_object env obj in
  exists ymap,
    outcome run = Returned ymap
    /\ CMapData.entities ymap = []
    /\ CMapData.box_occluders ymap = []
    /\ CMapData.occlude_models ymap = []
    /\ CMapData.car_generators ymap = []
    /\ diagnostics run = []
    /\ children (scene run) = children obj
    /\ scene run =
       set_ymap_properties obj
         (set_extents (ymap_properties obj) (generate_ymap_extents obj)).
Proof.
  intros He Hb Hm Hc run. subst run. unfold ymap_from_object.
  rewrite (export_children_all_disabled env (initial_state obj)
             (children obj) He Hb Hm Hc).
  simpl. eexists. split; [reflexivity|]. repeat split.
  destruct obj as [n t l r sc d m da ep yp mf cp cs]. simpl.
  destruct yp. reflexivity.
Qed.

(** *** The name [entity_from_obj] writes *)

Lemma lower_char_idem (c : ascii) : lower_char (lower_char c) = lower_char c.
Proof. destruct c as [[] [] [] [] [] [] [] []]; reflexivity. Qed.

Lemma lower_idem (s : string) : lower (lower s) = lower s.
Proof.
  induction s as [|c s IH]; simpl; [reflexivity|].
  now rewrite lower_char_idem, IH.
Qed.

Lemma replace_from_keeps_lower (pat : string) (s : string) :
  forall skip, lower s = s ->
  lower (replace_from pat "" skip s) = replace_from pat "" skip s.
Proof.
  induction s as [|c s IH]; intros skip Hlow; [reflexivity|].
  cbn [lower] in Hlow. injection Hlow as Hc Hs. cbn [replace_from].
  destruct skip as [|k]; [|now apply IH].
  destruct (String.prefix pat (String c s)).
  - cbn [append]. now apply IH.
  - cbn [lower]. now rewrite Hc, IH.
Qed.

Lemma replace_absent (pat rep : string) (s : string) :
  contains pat s = false -> replace_from pat rep 0 s = s.
Proof.
  induction s as [|c s IH]; intros Habs; [reflexivity|].
  cbn [contains] in Habs. apply orb_false_iff in Habs.
  destruct Habs as [Hpre Hrest].
  cbn [replace_from]. rewrite Hpre. now rewrite IH.
Qed.

(** X10.  The name [entity_from_obj] leaves on the object has no ASCII
    upper-case letter left: lower-casing it again changes nothing.  The
    archetype name of the record is [remove_number_suffix] of that
    name. *)
Theorem entity_from_obj_name_is_lower_case (game : SollumzGame)
  (obj : Object F) :
  let renamed := fst (entity_from_obj game obj) in
  lower (name renamed) = name renamed
  /\ Entity.archetype_name (snd (entity_from_obj game obj))
     = remove_number_suffix (name renamed).
Proof.
  split; [|reflexivity]. simpl. unfold replace.
  apply replace_from_keeps_lower. apply lower_idem.
Qed.

(** X11.  [entity_from_obj] changes nothing in an object whose name is
    ASCII text, has no upper-case letter and does not contain
    [" (not found)"]: the name it assigns is the name the object has, so
    exporting such an entity leaves the scene as it was. *)
Theorem entity_from_obj_keeps_exported_name (game : SollumzGame)
  (obj : Object F) :
  isascii (name obj) = true ->
  lower (name obj) = name obj ->
  contains " (not found)" (name obj) = false ->
  fst (entity_from_obj game obj) = obj.
Proof.
  intros _ Hlow Habs. rewrite entity_from_obj_scene, Hlow. unfold replace.
  rewrite (replace_absent _ _ _ Habs). now destruct obj.
Qed.

(** *** Reading the record of a model occluder back *)

Lemma lor_marker (n : Z) :
  0 <= n < 32768 -> Z.lor n 32768 = n + 32768.
Proof.
  intros Hn.
  assert (Hdisjoint : Z.land n 32768 = 0);
    [|now rewrite <- Z.lxor_lor, Z.add_nocarry_lxor].
  apply Z.bits_inj'. intros i Hi. rewrite Z.land_spec, Z.bits_0.
  change 32768 with (2 ^ 15). rewrite Z.pow2_bits_eqb by lia.
  destruct (Z.eqb_spec 15 i) as [<-|Hne]; [|apply andb_false_r].
  rewrite andb_true_r. apply Z.testbit_false; [lia|].
  rewrite Z.div_small by (change (2 ^ 15) with 32768; lia). reflexivity.
Qed.

(** X12.  The triangle count round trip.  [num_tris] always has the
    format marker, bit 15, set.  For a mesh of fewer than 32768 polygons
    it is the polygon count plus 32768, and clearing the marker gives the
    polygon count back; for a polygon count that already has bit 15 set
    the marker adds nothing and [num_tris] is the bare count. *)
Theorem num_tris_round_trip (obj : Object F) :
  let count := Z.of_nat
                 (List.length (polygons (data (triangulate_obj obj)))) in
  match snd (model_from_obj obj) with
  | Returned model =>
      Z.testbit (OccludeModel.num_tris model) 15 = true
      /\ (count < 32768 ->
          OccludeModel.num_tris model = count + 32768
          /\ Z.land (OccludeModel.num_tris model) 32767 = count)
      /\ (Z.testbit count 15 = true -> OccludeModel.num_tris model = count)
  | Raised _ => True
  end.
Proof.
  intros count. rewrite model_from_obj_outcome. cbv zeta.
  match goal with |- context [if ?b then _ else _] => destruct b end;
    [|exact I].
  cbn [OccludeModel.num_tris]. fold count.
  assert (Hpos : 0 <= count) by (unfold count; lia).
  split; [|split].
  - rewrite Z.lor_spec. change 32768 with (2 ^ 15).
    rewrite Z.pow2_bits_true by lia. apply orb_true_r.
  - intros Hsmall. rewrite lor_marker by lia. split; [reflexivity|].
    change 32767 with (Z.ones 15). rewrite Z.land_ones by lia.
    change (2 ^ 15) with 32768.
    rewrite <- (Z.mul_1_l 32768) at 1. rewrite Z.mod_add by lia.
    apply Z.mod_small. lia.
  - intros Hbit. apply Z.bits_inj'. intros i Hi. rewrite Z.lor_spec.
    change 32768 with (2 ^ 15). rewrite Z.pow2_bits_eqb by lia.
    destruct (Z.eqb_spec 15 i) as [<-|Hne]; [|apply orb_false_r].
    now rewrite Hbit.
Qed.

(** X13.  The buffer of a returned record splits at
    [num_verts_in_bytes]: the bytes before are the twelve bytes of each
    vertex, in vertex order, and the bytes after are one byte for each
    polygon corner, in polygon order, [polygonCount*3] of them. *)
Theorem buffer_splits_at_vertex_bytes (obj : Object F) :
  let mesh := data (triangulate_obj obj) in
  match snd (model_from_obj obj) with
  | Returned model =>
      firstn (OccludeModel.num_verts_in_bytes model)
        (OccludeModel.verts model)
      = flat_map vertex_tobytes
          (map (matmul (matrix_world obj)) (vertices mesh))
      /\ skipn (OccludeModel.num_verts_in_bytes model)
           (OccludeModel.verts model)
         = map uint8 (List.concat (polygons mesh))
      /\ List.length
           (skipn (OccludeModel.num_verts_in_bytes model)
              (OccludeModel.verts model))
         = (List.length (polygons mesh) * 3)%nat
  | Raised _ => True
  end.
Proof.
  intros mesh. rewrite model_from_obj_outcome. cbv zeta.
  match goal with |- context [if ?b then _ else _] =>
    destruct b eqn:E end; [|exact I].
  apply Nat.eqb_eq in E.
  cbn [OccludeModel.num_verts_in_bytes OccludeModel.verts].
  unfold occlusion_model_obj_get_data_buffer in *. fold mesh in E |- *.
  change (matrix_world (triangulate_obj obj)) with (matrix_world obj) in *.
  set (vs := flat_map vertex_tobytes
               (map (fun co => matmul (matrix_world obj) co)
                  (vertices mesh))) in *.
  assert (Hvs : List.length vs = (List.length (vertices mesh) * 12)%nat).
  { unfold vs. now rewrite flat_map_vertex_tobytes_length, length_map. }
  rewrite <- Hvs.
  rewrite firstn_app, Nat.sub_diag, firstn_all, firstn_O, app_nil_r.
  rewrite skipn_app, Nat.sub_diag, skipn_all, skipn_O.
  repeat split. simpl. rewrite length_app in E. lia.
Qed.

End YmapMore.

(** ** The encoders in exact arithmetic

    With real numbers for floats, whatever [mathutils] and the helpers
    compute. *)

Section RealEncoders.
  Import Ymap YmapSample.
  Local Open Scope R_scope.
  Context {rotations : MathUtils R} {host : Helpers R}.

Lemma Rabs_le_bounds (a b : R) : Rabs a <= b -> - b <= a <= b.
Proof. unfold Rabs. destruct (Rcase_abs a); lra. Qed.

Lemma round_half_even_error (r : R) :
  Rabs (IZR (round_half_even r) - r) <= 1 / 2.
Proof.
  unfold round_half_even. destruct (base_Int_part r) as [Hlo Hhi].
  destruct (Rlt_dec (r - IZR (Int_part r)) (1 / 2)).
  - apply Rabs_le. lra.
  - destruct (Rlt_dec (1 / 2) (r - IZR (Int_part r))).
    + rewrite plus_IZR. apply Rabs_le. lra.
    + destruct (Z.even (Int_part r)); [|rewrite plus_IZR];
        apply Rabs_le; lra.
Qed.

Lemma round_half_even_between (r : R) (a b : Z) :
  IZR a <= r <= IZR b -> (a <= round_half_even r <= b)%Z.
Proof.
  intros [Ha Hb]. pose proof (round_half_even_error r) as Herr.
  apply Rabs_le_bounds in Herr. split.
  - apply Z.lt_succ_r, lt_IZR. rewrite succ_IZR. lra.
  - apply Z.lt_succ_r, lt_IZR. rewrite succ_IZR. lra.
Qed.

(** X14.  Each quantised field of a box occluder is the nearest integer
    to four times the value it encodes: the encoded center and dimensions
    are within an eighth of a unit of the true ones. *)
Theorem box_quantisation_error (obj : Object R) :
  let box := box_from_obj (mathutils := rotations) (helpers := host) obj in
  let extents := get_extents obj in
  let center := get_bound_center_from_bounds (fst extents) (snd extents) in
  Rabs (IZR (BoxOccluder.center_x box) / 4 - Vector.x center) <= 1 / 8
  /\ Rabs (IZR (BoxOccluder.center_y box) / 4 - Vector.y center) <= 1 / 8
  /\ Rabs (IZR (BoxOccluder.center_z box) / 4 - Vector.z center) <= 1 / 8
  /\ Rabs (IZR (BoxOccluder.length box) / 4 - Vector.x (dimensions obj))
     <= 1 / 8
  /\ Rabs (IZR (BoxOccluder.width box) / 4 - Vector.y (dimensions obj))
     <= 1 / 8
  /\ Rabs (IZR (BoxOccluder.height box) / 4 - Vector.z (dimensions obj))
     <= 1 / 8.
Proof.
  intros box extents center. subst box. unfold box_from_obj.
  fold extents. destruct extents as [bbmin bbmax] eqn:E.
  cbn [BoxOccluder.center_x BoxOccluder.center_y BoxOccluder.center_z
       BoxOccluder.length BoxOccluder.width BoxOccluder.height
       py_round fmul float_of_Z real_float].
  subst center. cbn [fst snd].
  assert (Hq : forall v, Rabs (IZR (round_half_even (v * 4)) / 4 - v)
                         <= 1 / 8).
  { intros v. pose proof (round_half_even_error (v * 4)) as H.
    apply Rabs_le_bounds in H. apply Rabs_le. lra. }
  repeat split; apply Hq.
Qed.

(** X15.  The orientation pair fits sixteen signed bits whenever the
    rotation of the unit vector keeps its X and Y components within
    [-1, 1], as a rotation does: both encoded components then lie in
    [-16384, 16384]. *)
Theorem box_orientation_fits_sixteen_bits (obj : Object R) :
  let dir := rotate (Vector.mk 1 0 0) (rotation_euler obj) in
  let box := box_from_obj (mathutils := rotations) (helpers := host) obj in
  Rabs (Vector.x dir) <= 1 -> Rabs (Vector.y dir) <= 1 ->
  (-16384 <= BoxOccluder.sin_z box <= 16384)%Z
  /\ (-16384 <= BoxOccluder.cos_z box <= 16384)%Z.
Proof.
  intros dir box Hx Hy. subst box. unfold box_from_obj.
  destruct (get_extents obj) as [bbmin bbmax].
  cbn [BoxOccluder.sin_z BoxOccluder.cos_z py_round fmul float_of_Z
       float_of_Q real_float vec_scale Vector.x Vector.y].
  fold dir. rewrite half_value.
  apply Rabs_le_bounds in Hx. apply Rabs_le_bounds in Hy.
  split; apply round_half_even_between; lra.
Qed.

(** X16.  The orientation of a car generator lies on the circle of
    radius 5: it is [(-5 sin yaw, 5 cos yaw)] for the yaw
    [rotation_euler[2]], so the squares of its two components add up to
    25, and it does not depend on the rotation about X or Y. *)
Theorem cargen_orientation_on_circle (obj : Object R) :
  let yaw := Euler.z (rotation_euler obj) in
  let orient := calculate_cargen_orient obj in
  fst orient = - 5 * sin yaw
  /\ snd orient = 5 * cos yaw
  /\ fst orient * fst orient + snd orient * snd orient = 25
  /\ CarGenerator.orient_x
       (cargen_from_obj obj) = fst orient
  /\ CarGenerator.orient_y
       (cargen_from_obj obj) = snd orient.
Proof.
  intros yaw orient. subst orient. unfold cargen_from_obj.
  unfold calculate_cargen_orient.
  cbn [fst snd fmul float_of_Z math_sin math_cos real_float
       CarGenerator.orient_x CarGenerator.orient_y].
  fold yaw. replace (yaw * -1) with (- yaw) by lra.
  rewrite sin_neg, cos_neg.
  pose proof (sin2_cos2 yaw) as H. unfold Rsqr in H.
  repeat split; lra.
Qed.

End RealEncoders.

(** ** More runs on the sample scenes *)

Section MoreSampleRuns.
  Import Ymap YmapSample.
  Local Open Scope R_scope.

(** The matrix of Euler angles turns the unit X vector into a vector
    whose components are products of sines and cosines. *)
Lemma real_rotate_unit_bounded (e : Euler.t R) :
  Rabs (Vector.x (real_rotate (Vector.mk 1 0 0) e)) <= 1
  /\ Rabs (Vector.y (real_rotate (Vector.mk 1 0 0) e)) <= 1.
Proof.
  cbv [real_rotate Vector.x Vector.y Vector.z].
  pose proof (COS_bound (Euler.y e)) as Hcj.
  pose proof (COS_bound (Euler.z e)) as Hch.
  pose proof (SIN_bound (Euler.z e)) as Hsh.
  split; apply Rabs_le; split; nra.
Qed.

(** X9 on [cell]: with every category disabled, the tree keeps its name. *)
Lemma cell_export_with_everything_disabled :
  exists ymap,
    outcome (ymap_from_object export_nothing cell) = Returned ymap
    /\ CMapData.entities ymap = []
    /\ children (scene (ymap_from_object export_nothing cell))
       = children cell.
Proof.
  destruct (export_with_everything_disabled export_nothing cell
              eq_refl eq_refl eq_refl eq_refl)
    as [ymap [Hret [Hent [_ [_ [_ [_ [Hscene _]]]]]]]].
  exists ymap. auto.
Defined.

(** X11 on [shrub], whose name is already in its exported form. *)
Lemma shrub_is_left_alone : fst (entity_from_obj RDR shrub) = shrub.
Proof.
  apply (entity_from_obj_keeps_exported_name RDR shrub); reflexivity.
Defined.

(** X12 on [wall]: two triangles, marked. *)
Lemma wall_triangle_count :
  exists model,
    snd (model_from_obj wall) = Returned model
    /\ OccludeModel.num_tris model = 32770%Z
    /\ Z.land (OccludeModel.num_tris model) 32767 = 2%Z.
Proof.
  pose proof (num_tris_round_trip wall) as Hcount.
  assert (Hret : exists model, snd (model_from_obj wall) = Returned model)
    by (eexists; reflexivity).
  destruct Hret as [model Hret]. rewrite Hret in Hcount.
  exists model. split; [exact Hret|].
  exact (proj1 (proj2 Hcount) eq_refl).
Defined.

(** X15 on [slab], with the matrix of its Euler angles. *)
Lemma slab_orientation_fits :
  (-16384 <= BoxOccluder.sin_z (box_from_obj slab) <= 16384)%Z
  /\ (-16384 <= BoxOccluder.cos_z (box_from_obj slab) <= 16384)%Z.
Proof.
  apply (box_orientation_fits_sixteen_bits
           (rotations := real_mathutils) (host := sample_helpers) slab).
  - apply real_rotate_unit_bounded.
  - apply real_rotate_unit_bounded.
Defined.

End MoreSampleRuns.
